(** * A triangle on screen: the shader builder and the frame loop

    Shallow embedding of [src/TheChernoOpenGL/src/application.cpp].

    The program is straight-line code around the OpenGL / GLFW / GLEW
    entry points.  Those entry points are not part of the repository, so
    they are modelled here as an interface:

    - every entry point the program invokes is recorded, with its
      arguments, in a chronological list of calls;
    - what an entry point hands back to the program (object names, the
      window pointer, the compile status, the info log, the close flag)
      is chosen by a [Driver], over which every theorem is quantified;
    - the part of the context state that the program configures (object
      tables, bindings, clear colour) follows the OpenGL reference pages
      of the commands involved.

    The three functions of the source, [CompileShader], [CreateShader]
    and [main], are written in a state-and-error monad over that
    interface, statement by statement. *)

From Stdlib Require Import ZArith QArith String Ascii List Lia.
From stdpp Require Import base gmap strings list.
Import ListNotations.

Open Scope Z_scope.

(* ===================================================================== *)
(** ** Machine integers *)
(* ===================================================================== *)

(** [unsigned int] / [GLuint]: 32 bits, wrap-around. *)
Definition to_uint (x : Z) : Z := x mod 2 ^ 32.

(** [int] / [GLint]: 32 bits, two's complement. *)
Definition to_int (x : Z) : Z := (x + 2 ^ 31) mod 2 ^ 32 - 2 ^ 31.

Definition sizeof_char : Z := 1.
Definition sizeof_float : Z := 4.

(** A [float] literal is kept as the decimal it is written as; the program
    performs no arithmetic on floats, it only passes them on. *)
Abbreviation GLfloat := Q.

(** The null pointer, and the NUL character that ends a C string. *)
Definition NULL : Z := 0.
Definition NUL : ascii := Ascii.zero.

(* ===================================================================== *)
(** ** Constants of the headers *)
(* ===================================================================== *)

Definition GL_FALSE : Z := 0.
Definition GL_TRUE : Z := 1.
Definition GL_TRIANGLES : Z := 0x0004.
Definition GL_FLOAT : Z := 0x1406.
Definition GL_VERSION : Z := 0x1F02.
Definition GL_COLOR_BUFFER_BIT : Z := 0x4000.
Definition GL_ARRAY_BUFFER : Z := 0x8892.
Definition GL_STATIC_DRAW : Z := 0x88E4.
Definition GL_FRAGMENT_SHADER : Z := 0x8B30.
Definition GL_VERTEX_SHADER : Z := 0x8B31.
Definition GL_COMPILE_STATUS : Z := 0x8B81.
Definition GL_INFO_LOG_LENGTH : Z := 0x8B84.
Definition GLFW_FALSE : Z := 0.
Definition GLFW_TRUE : Z := 1.

(* ===================================================================== *)
(** ** The calls of the interface *)
(* ===================================================================== *)

(** One constructor per entry point, carrying the arguments passed by
    value.  Pointers to data are replaced by the data they point to
    ([glShaderSource], [glBufferData]); output parameters are left out.
    [glDrawElements], the indexed counterpart of [glDrawArrays], belongs
    to the vocabulary so that the two kinds of draw can be told apart. *)
Module Call.
Inductive t : Type :=
| glfwInit
| glewInit
| glfwCreateWindow (width height : Z) (title : string) (monitor share : Z)
| glfwTerminate
| glfwMakeContextCurrent (window : Z)
| glfwWindowShouldClose (window : Z)
| glfwSwapBuffers (window : Z)
| glfwPollEvents
| glGetString (name : Z)
| glGenBuffers (n : Z)
| glBindBuffer (target buffer : Z)
| glBufferData (target size : Z) (data : list GLfloat) (usage : Z)
| glEnableVertexAttribArray (index : Z)
| glVertexAttribPointer (index size type normalized stride pointer : Z)
| glCreateProgram
| glCreateShader (type : Z)
| glShaderSource (shader count : Z) (source : string)
| glCompileShader (shader : Z)
| glGetShaderiv (shader pname : Z)
| glGetShaderInfoLog (shader bufSize : Z)
| glDeleteShader (shader : Z)
| glAttachShader (program shader : Z)
| glLinkProgram (program : Z)
| glValidateProgram (program : Z)
| glUseProgram (program : Z)
| glDeleteProgram (program : Z)
| glClearColor (red green blue alpha : GLfloat)
| glClear (mask : Z)
| glDrawArrays (mode first count : Z)
| glDrawElements (mode count type indices : Z).
End Call.

(** Classification of calls, used to count them in a trace. *)
Definition is_draw (c : Call.t) : bool :=
  match c with
  | Call.glDrawArrays _ _ _ | Call.glDrawElements _ _ _ _ => true
  | _ => false
  end.

Definition is_indexed_draw (c : Call.t) : bool :=
  match c with Call.glDrawElements _ _ _ _ => true | _ => false end.

Definition is_upload (c : Call.t) : bool :=
  match c with Call.glBufferData _ _ _ _ => true | _ => false end.

Definition is_shader_build (c : Call.t) : bool :=
  match c with
  | Call.glCreateProgram | Call.glCreateShader _ | Call.glShaderSource _ _ _
  | Call.glCompileShader _ | Call.glAttachShader _ _ | Call.glLinkProgram _ =>
      true
  | _ => false
  end.

Definition is_close_check (c : Call.t) : bool :=
  match c with Call.glfwWindowShouldClose _ => true | _ => false end.

Definition is_teardown (c : Call.t) : bool :=
  match c with Call.glfwTerminate => true | _ => false end.

Definition count (p : Call.t -> bool) (l : list Call.t) : nat :=
  length (List.filter p l).

(* ===================================================================== *)
(** ** The driver *)
(* ===================================================================== *)

(** Everything the windowing system and the graphics driver decide. *)
Record Driver : Type := {
  (** [GLFW_TRUE] or [GLFW_FALSE] *)
  glfwInit_result : Z;
  (** the window pointer, [NULL] when the window cannot be created *)
  glfwCreateWindow_result : Z;
  (** the version string, no string for a null pointer *)
  glGetString_result : option string;
  (** object names; [glCreateProgram] and [glCreateShader] return 0 when
      the object cannot be created *)
  glGenBuffers_name : Z;
  glCreateProgram_name : Z;
  glCreateShader_name : Z -> Z;
  (** the compiler: status and info log for a shader type and a source *)
  compile_status : Z -> string -> Z;
  compile_log : Z -> string -> string;
  (** the linker and the validator *)
  link_ok : bool;
  validate_ok : bool;
  (** the close flag read by the [k]-th call of [glfwWindowShouldClose],
      counted from 0 *)
  close_flag : nat -> Z
}.

(* ===================================================================== *)
(** ** Context state *)
(* ===================================================================== *)

Record Shader : Type := {
  sh_type : Z;
  sh_source : string;
  sh_status : Z;
  sh_log : string;
  sh_flagged : bool
}.

Record Program : Type := {
  pg_attached : list Z;
  pg_linked : bool;
  pg_valid : bool;
  pg_flagged : bool
}.

Record Buffer : Type := {
  bf_size : Z;
  bf_data : list GLfloat;
  bf_usage : Z
}.

Record Attrib : Type := {
  at_enabled : bool;
  at_size : Z;
  at_type : Z;
  at_normalized : Z;
  at_stride : Z;
  at_pointer : Z;
  at_buffer : Z
}.

Record GLState : Type := {
  shaders : gmap Z Shader;
  programs : gmap Z Program;
  buffers : gmap Z Buffer;
  array_buffer : Z;
  attribs : gmap Z Attrib;
  current_program : Z;
  clear_color : GLfloat * GLfloat * GLfloat * GLfloat
}.

Definition initial_gl : GLState :=
  {| shaders := ∅; programs := ∅; buffers := ∅; array_buffer := 0;
     attribs := ∅; current_program := 0;
     clear_color := (0, 0, 0, 0)%Q |}.

Definition new_shader (type : Z) : Shader :=
  {| sh_type := type; sh_source := EmptyString; sh_status := GL_FALSE;
     sh_log := EmptyString; sh_flagged := false |}.

Definition new_program : Program :=
  {| pg_attached := []; pg_linked := false; pg_valid := false;
     pg_flagged := false |}.

Definition new_buffer : Buffer :=
  {| bf_size := 0; bf_data := []; bf_usage := 0 |}.

Definition default_attrib : Attrib :=
  {| at_enabled := false; at_size := 4; at_type := GL_FLOAT;
     at_normalized := GL_FALSE; at_stride := 0; at_pointer := 0;
     at_buffer := 0 |}.

Definition with_shaders (f : gmap Z Shader -> gmap Z Shader) (g : GLState) :=
  {| shaders := f (shaders g); programs := programs g; buffers := buffers g;
     array_buffer := array_buffer g; attribs := attribs g;
     current_program := current_program g; clear_color := clear_color g |}.

Definition with_programs (f : gmap Z Program -> gmap Z Program) (g : GLState) :=
  {| shaders := shaders g; programs := f (programs g); buffers := buffers g;
     array_buffer := array_buffer g; attribs := attribs g;
     current_program := current_program g; clear_color := clear_color g |}.

Definition with_buffers (f : gmap Z Buffer -> gmap Z Buffer) (g : GLState) :=
  {| shaders := shaders g; programs := programs g; buffers := f (buffers g);
     array_buffer := array_buffer g; attribs := attribs g;
     current_program := current_program g; clear_color := clear_color g |}.

Definition with_array_buffer (b : Z) (g : GLState) :=
  {| shaders := shaders g; programs := programs g; buffers := buffers g;
     array_buffer := b; attribs := attribs g;
     current_program := current_program g; clear_color := clear_color g |}.

Definition with_attribs (f : gmap Z Attrib -> gmap Z Attrib) (g : GLState) :=
  {| shaders := shaders g; programs := programs g; buffers := buffers g;
     array_buffer := array_buffer g; attribs := f (attribs g);
     current_program := current_program g; clear_color := clear_color g |}.

Definition with_current_program (p : Z) (g : GLState) :=
  {| shaders := shaders g; programs := programs g; buffers := buffers g;
     array_buffer := array_buffer g; attribs := attribs g;
     current_program := p; clear_color := clear_color g |}.

Definition with_clear_color (c : GLfloat * GLfloat * GLfloat * GLfloat)
    (g : GLState) :=
  {| shaders := shaders g; programs := programs g; buffers := buffers g;
     array_buffer := array_buffer g; attribs := attribs g;
     current_program := current_program g; clear_color := c |}.

Definition attrib_at (g : GLState) (index : Z) : Attrib :=
  default (default_attrib) (attribs g !! index).

Definition set_source (source : string) (s : Shader) : Shader :=
  {| sh_type := sh_type s; sh_source := source; sh_status := sh_status s;
     sh_log := sh_log s; sh_flagged := sh_flagged s |}.

Definition compile (d : Driver) (s : Shader) : Shader :=
  {| sh_type := sh_type s; sh_source := sh_source s;
     sh_status := compile_status d (sh_type s) (sh_source s);
     sh_log := compile_log d (sh_type s) (sh_source s);
     sh_flagged := sh_flagged s |}.

Definition flag_shader (s : Shader) : Shader :=
  {| sh_type := sh_type s; sh_source := sh_source s;
     sh_status := sh_status s; sh_log := sh_log s; sh_flagged := true |}.

Definition attach (shader : Z) (p : Program) : Program :=
  if bool_decide (shader ∈ pg_attached p) then p
  else
    {| pg_attached := pg_attached p ++ [shader]; pg_linked := pg_linked p;
       pg_valid := pg_valid p; pg_flagged := pg_flagged p |}.

Definition link (d : Driver) (p : Program) : Program :=
  {| pg_attached := pg_attached p; pg_linked := link_ok d;
     pg_valid := pg_valid p; pg_flagged := pg_flagged p |}.

Definition validate (d : Driver) (p : Program) : Program :=
  {| pg_attached := pg_attached p; pg_linked := pg_linked p;
     pg_valid := validate_ok d; pg_flagged := pg_flagged p |}.

Definition flag_program (p : Program) : Program :=
  {| pg_attached := pg_attached p; pg_linked := pg_linked p;
     pg_valid := pg_valid p; pg_flagged := true |}.

(** Is the shader attached to some program object? *)
Definition is_attached (g : GLState) (shader : Z) : bool :=
  bool_decide (map_Exists (λ _ p, shader ∈ pg_attached p) (programs g)).

(** Deleting a program detaches its shaders; a shader that was flagged
    for deletion and is attached nowhere any more goes with it. *)
Definition delete_program (program : Z) (g : GLState) : GLState :=
  let g' := with_programs (delete program) g in
  with_shaders
    (filter
       (λ kv, ¬ (sh_flagged kv.2 = true ∧ is_attached g' kv.1 = false)))
    g'.

(** The effect of a call on the context state.  Calls that only read, and
    calls that only touch the framebuffer or the window, leave the
    modelled state as it is; so does a call the reference pages reject
    with an error (unknown object name, no buffer bound, ...).  The
    window system is not interpreted: [glfwTerminate] destroys the window
    and its context, and what is kept after it is the state the context
    had when it was destroyed. *)
Definition gl_exec (d : Driver) (c : Call.t) (g : GLState) : GLState :=
  match c with
  | Call.glBindBuffer target buffer =>
      if target =? GL_ARRAY_BUFFER then
        with_array_buffer buffer
          (if (buffer =? 0) || bool_decide (is_Some (buffers g !! buffer))
           then g
           else with_buffers (insert buffer new_buffer) g)
      else g
  | Call.glBufferData target size data usage =>
      if (target =? GL_ARRAY_BUFFER) && negb (array_buffer g =? 0)
         && (0 <=? size)
      then
        with_buffers
          (insert (array_buffer g)
             {| bf_size := size;
                bf_data := take (Z.to_nat (size / sizeof_float)) data;
                bf_usage := usage |})
          g
      else g
  | Call.glEnableVertexAttribArray index =>
      let a := attrib_at g index in
      with_attribs
        (insert index
           {| at_enabled := true; at_size := at_size a; at_type := at_type a;
              at_normalized := at_normalized a; at_stride := at_stride a;
              at_pointer := at_pointer a; at_buffer := at_buffer a |})
        g
  | Call.glVertexAttribPointer index size type normalized stride pointer =>
      with_attribs
        (insert index
           {| at_enabled := at_enabled (attrib_at g index); at_size := size;
              at_type := type; at_normalized := normalized;
              at_stride := stride; at_pointer := pointer;
              at_buffer := array_buffer g |})
        g
  | Call.glCreateProgram =>
      let program := to_uint (glCreateProgram_name d) in
      if program =? 0 then g
      else with_programs (insert program new_program) g
  | Call.glCreateShader type =>
      let shader := to_uint (glCreateShader_name d type) in
      if shader =? 0 then g
      else with_shaders (insert shader (new_shader type)) g
  | Call.glShaderSource shader _ source =>
      with_shaders (alter (set_source source) shader) g
  | Call.glCompileShader shader =>
      with_shaders (alter (compile d) shader) g
  | Call.glDeleteShader shader =>
      if is_attached g shader
      then with_shaders (alter flag_shader shader) g
      else with_shaders (delete shader) g
  | Call.glAttachShader program shader =>
      if bool_decide (is_Some (shaders g !! shader))
      then with_programs (alter (attach shader) program) g
      else g
  | Call.glLinkProgram program =>
      with_programs (alter (link d) program) g
  | Call.glValidateProgram program =>
      with_programs (alter (validate d) program) g
  | Call.glUseProgram program =>
      if program =? 0 then with_current_program 0 g
      else
        match programs g !! program with
        | Some p => if pg_linked p then with_current_program program g else g
        | None => g
        end
  | Call.glDeleteProgram program =>
      if (program =? current_program g) && negb (program =? 0)
      then with_programs (alter flag_program program) g
      else delete_program program g
  | Call.glClearColor red green blue alpha =>
      with_clear_color (red, green, blue, alpha) g
  | _ => g
  end.

(* ===================================================================== *)
(** ** The world and the monad of the program *)
(* ===================================================================== *)

Record World : Type := {
  (** the calls issued so far, oldest first *)
  calls : list Call.t;
  (** the characters written to [std::cout] so far *)
  console : string;
  (** the context state *)
  gl : GLState;
  (** how often the close flag has been read *)
  close_checks : nat
}.

Definition initial_world : World :=
  {| calls := []; console := EmptyString; gl := initial_gl;
     close_checks := 0 |}.

(** A run returns, or reaches undefined behaviour (an indeterminate value
    is read, a read runs off an allocation), or is still inside the frame
    loop when the iteration budget is used up. *)
Inductive outcome (A : Type) : Type :=
| Done (a : A) (w : World)
| Undefined (w : World)
| Looping (w : World).
Arguments Done {A} a w.
Arguments Undefined {A} w.
Arguments Looping {A} w.

Definition M (A : Type) : Type := World -> outcome A.

#[export] Instance M_ret : MRet M := λ A a w, Done a w.

#[export] Instance M_bind : MBind M := λ A B k m w,
  match m w with
  | Done a w' => k a w'
  | Undefined w' => Undefined w'
  | Looping w' => Looping w'
  end.

Definition undefined {A : Type} : M A := λ w, Undefined w.
Definition looping {A : Type} : M A := λ w, Looping w.

(** The world an outcome stops in. *)
Definition world_of {A : Type} (o : outcome A) : World :=
  match o with Done _ w | Undefined w | Looping w => w end.

(** Issue a call: it is appended to the trace and acts on the context. *)
Definition step (d : Driver) (c : Call.t) (w : World) : World :=
  {| calls := calls w ++ [c];
     console := console w;
     gl := gl_exec d c (gl w);
     close_checks :=
       (if is_close_check c then S (close_checks w) else close_checks w) |}.

Definition call (d : Driver) (c : Call.t) : M unit :=
  λ w, Done () (step d c w).

(** Read something off the world without changing it. *)
Definition ask {A : Type} (f : World -> A) : M A := λ w, Done (f w) w.

(** Write characters to the console. *)
Definition print (s : string) (w : World) : World :=
  {| calls := calls w; console := console w +:+ s; gl := gl w;
     close_checks := close_checks w |}.

(** [std::cout << s]. *)
Definition cout (s : string) : M unit := λ w, Done () (print s w).

Definition newline : string := String "010" EmptyString.

(** [std::cout << std::endl]. *)
Definition endl : M unit := cout newline.

(* ===================================================================== *)
(** ** Memory the program hands to the driver *)
(* ===================================================================== *)

(** A local variable or a byte that has not been written holds no value;
    reading it is undefined behaviour. *)
Definition load {A : Type} (x : option A) : M A :=
  match x with Some a => mret a | None => undefined end.

(** A character buffer; [None] is a byte nobody has written yet. *)
Abbreviation buffer := (list (option ascii)).

(** [alloca(n)]: [n] fresh bytes on the stack.  A negative [int] turns
    into a size no stack can hold. *)
Definition alloca (n : Z) : M buffer :=
  if n <? 0 then undefined else mret (replicate (Z.to_nat n) None).

(** Overwrite the beginning of a buffer with characters and the
    terminator. *)
Definition store_cstr (text : list ascii) (buf : buffer) : buffer :=
  map Some text ++ [Some NUL] ++ drop (S (length text)) buf.

(** Read a C string: the characters up to the first NUL.  There is none
    when an unwritten byte or the end of the allocation comes first. *)
Fixpoint read_cstr (buf : buffer) : option string :=
  match buf with
  | [] => None
  | None :: _ => None
  | Some c :: rest =>
      if Ascii.eqb c NUL then Some EmptyString
      else String c <$> read_cstr rest
  end.

(** [s.c_str()] as the callee reads it: the characters before the first
    NUL. *)
Fixpoint c_str (s : string) : string :=
  match s with
  | EmptyString => EmptyString
  | String c s' => if Ascii.eqb c NUL then EmptyString else String c (c_str s')
  end.

(** [std::cout << message] for a [char*] pointing into a buffer. *)
Definition cout_cstr (message : buffer) : M unit :=
  match read_cstr message with
  | Some s => cout s
  | None => undefined
  end.

(** [std::cout << p] for a string pointer that may be null. *)
Definition cout_ptr (p : option string) : M unit :=
  match p with
  | Some s => cout s
  | None => undefined
  end.

(** The value of [GL_INFO_LOG_LENGTH]: the length of the log with its
    terminator, 0 when there is no log. *)
Definition info_log_length (s : Shader) : Z :=
  if String.eqb (sh_log s) EmptyString then 0
  else Z.of_nat (String.length (sh_log s)) + 1.

(* ===================================================================== *)
(** ** The entry points as actions *)
(* ===================================================================== *)

Section Program.

Variable d : Driver.

Definition glfwInit : M Z :=
  call d Call.glfwInit;; mret (glfwInit_result d).

Definition glewInit : M unit := call d Call.glewInit.

Definition glfwCreateWindow (width height : Z) (title : string)
    (monitor share : Z) : M Z :=
  call d (Call.glfwCreateWindow width height title monitor share);;
  mret (glfwCreateWindow_result d).

Definition glfwTerminate : M unit := call d Call.glfwTerminate.

Definition glfwMakeContextCurrent (window : Z) : M unit :=
  call d (Call.glfwMakeContextCurrent window).

Definition glfwWindowShouldClose (window : Z) : M Z :=
  k ← ask close_checks;
  call d (Call.glfwWindowShouldClose window);;
  mret (close_flag d k).

Definition glfwSwapBuffers (window : Z) : M unit :=
  call d (Call.glfwSwapBuffers window).

Definition glfwPollEvents : M unit := call d Call.glfwPollEvents.

Definition glGetString (name : Z) : M (option string) :=
  call d (Call.glGetString name);; mret (glGetString_result d).

(** [glGenBuffers(n, &buffer)] with [n = 1]: the name written to
    [buffer]. *)
Definition glGenBuffers (n : Z) : M Z :=
  call d (Call.glGenBuffers n);; mret (to_uint (glGenBuffers_name d)).

Definition glBindBuffer (target buffer : Z) : M unit :=
  call d (Call.glBindBuffer target buffer).

Definition glBufferData (target size : Z) (data : list GLfloat) (usage : Z)
    : M unit :=
  call d (Call.glBufferData target size data usage).

Definition glEnableVertexAttribArray (index : Z) : M unit :=
  call d (Call.glEnableVertexAttribArray index).

Definition glVertexAttribPointer
    (index size type normalized stride pointer : Z) : M unit :=
  call d (Call.glVertexAttribPointer index size type normalized stride pointer).

Definition glCreateProgram : M Z :=
  call d Call.glCreateProgram;; mret (to_uint (glCreateProgram_name d)).

Definition glCreateShader (type : Z) : M Z :=
  call d (Call.glCreateShader type);;
  mret (to_uint (glCreateShader_name d type)).

(** [glShaderSource(shader, count, &src, nullptr)] with [count = 1]. *)
Definition glShaderSource (shader count : Z) (src : string) : M unit :=
  call d (Call.glShaderSource shader count src).

Definition glCompileShader (shader : Z) : M unit :=
  call d (Call.glCompileShader shader).

(** [glGetShaderiv(shader, pname, &params)]: the content of [params]
    after the call.  When [shader] names no shader object the call raises
    an error and [params] keeps what it held. *)
Definition glGetShaderiv (shader pname : Z) (params : option Z)
    : M (option Z) :=
  call d (Call.glGetShaderiv shader pname);;
  s ← ask (λ w, shaders (gl w) !! shader);
  mret
    (match s with
     | Some s =>
         if pname =? GL_COMPILE_STATUS then Some (sh_status s)
         else if pname =? GL_INFO_LOG_LENGTH then Some (info_log_length s)
         else params
     | None => params
     end).

(** [glGetShaderInfoLog(shader, bufSize, &length, infoLog)]: the content
    of [length] and of the buffer after the call.  At most [bufSize]
    bytes are written, terminator included; with [bufSize = 0] nothing
    is written at all, not even the terminator.  Writing more bytes than
    the buffer has is undefined. *)
Definition glGetShaderInfoLog (shader bufSize : Z) (length : option Z)
    (infoLog : buffer) : M (option Z * buffer) :=
  call d (Call.glGetShaderInfoLog shader bufSize);;
  s ← ask (λ w, shaders (gl w) !! shader);
  match s with
  | Some s =>
      if bufSize <? 0 then mret (length, infoLog)
      else if bufSize =? 0 then mret (Some 0, infoLog)
      else
        let text :=
          take (Z.to_nat (bufSize - 1)) (list_ascii_of_string (sh_log s)) in
        if Z.of_nat (List.length infoLog) <? bufSize then undefined
        else mret (Some (Z.of_nat (List.length text)), store_cstr text infoLog)
  | None => mret (length, infoLog)
  end.

Definition glDeleteShader (shader : Z) : M unit :=
  call d (Call.glDeleteShader shader).

Definition glAttachShader (program shader : Z) : M unit :=
  call d (Call.glAttachShader program shader).

Definition glLinkProgram (program : Z) : M unit :=
  call d (Call.glLinkProgram program).

Definition glValidateProgram (program : Z) : M unit :=
  call d (Call.glValidateProgram program).

Definition glUseProgram (program : Z) : M unit :=
  call d (Call.glUseProgram program).

Definition glDeleteProgram (program : Z) : M unit :=
  call d (Call.glDeleteProgram program).

Definition glClearColor (red green blue alpha : GLfloat) : M unit :=
  call d (Call.glClearColor red green blue alpha).

Definition glClear (mask : Z) : M unit := call d (Call.glClear mask).

Definition glDrawArrays (mode first count : Z) : M unit :=
  call d (Call.glDrawArrays mode first count).

(* ===================================================================== *)
(** ** The program *)
(* ===================================================================== *)

(** [static int CompileShader(unsigned int type, const std::string& source)] *)
Definition CompileShader (type : Z) (source : string) : M Z :=
  id ← glCreateShader type;
  let src := c_str source in
  glShaderSource id 1 src;;
  glCompileShader id;;
  (* int result; *)
  let result : option Z := None in
  result ← glGetShaderiv id GL_COMPILE_STATUS result;
  result ← load result;
  if result =? GL_FALSE then
    (* int length; *)
    let length : option Z := None in
    length ← glGetShaderiv id GL_INFO_LOG_LENGTH length;
    length ← load length;
    message ← alloca (length * sizeof_char);
    '(_, message) ← glGetShaderInfoLog id length (Some length) message;
    cout "(EE) Failed to compile ";;
    cout (if type =? GL_VERTEX_SHADER then "vertex" else "fragment");;
    cout "shader:";;
    endl;;
    cout_cstr message;;
    endl;;
    glDeleteShader id;;
    mret 0
  else
    mret (to_int id).

(** [static unsigned int CreateShader(const std::string& vertexShader,
                                      const std::string& fragmentShader)] *)
Definition CreateShader (vertexShader fragmentShader : string) : M Z :=
  program ← glCreateProgram;
  vs ← CompileShader GL_VERTEX_SHADER vertexShader;
  let vs := to_uint vs in
  fs ← CompileShader GL_FRAGMENT_SHADER fragmentShader;
  let fs := to_uint fs in
  glAttachShader program vs;;
  glAttachShader program fs;;
  glLinkProgram program;;
  glValidateProgram program;;
  glDeleteShader vs;;
  glDeleteShader fs;;
  mret program.

(** [float positions[6]] *)
Definition positions : list GLfloat :=
  [ (-0.5)%Q; (-0.5)%Q;
    0.0%Q; 0.5%Q;
    0.5%Q; (-0.5)%Q ].

Definition vertexShader : string :=
  "#version 330 core" +:+ newline +:+
  newline +:+
  "layout(location = 0) in vec4 position;" +:+ newline +:+
  newline +:+
  "void main()" +:+ newline +:+
  "{" +:+ newline +:+
  "   gl_Position = position;" +:+ newline +:+
  "}" +:+ newline.

Definition fragmentShader : string :=
  "#version 330 core" +:+ newline +:+
  newline +:+
  "layout(location = 0) out vec4 color;" +:+ newline +:+
  newline +:+
  "void main()" +:+ newline +:+
  "{" +:+ newline +:+
  "   color = vec4(1.0, 0.0, 0.0, 1.0);" +:+ newline +:+
  "}" +:+ newline.

(** The body of the [while] loop of [main]. *)
Definition render_frame (window : Z) : M unit :=
  glClearColor 0.2%Q 0.2%Q 0.3%Q 1.0%Q;;
  glClear GL_COLOR_BUFFER_BIT;;
  glDrawArrays GL_TRIANGLES 0 3;;
  glfwSwapBuffers window;;
  glfwPollEvents.

(** [while (!glfwWindowShouldClose(window)) { ... }], run for at most
    [fuel] evaluations of the condition. *)
Fixpoint frame_loop (fuel : nat) (window : Z) : M unit :=
  match fuel with
  | O => looping
  | S fuel' =>
      close ← glfwWindowShouldClose window;
      if close =? 0 then
        render_frame window;;
        frame_loop fuel' window
      else
        mret ()
  end.

(** [int main(void)] *)
Definition main (fuel : nat) : M Z :=
  init ← glfwInit;
  if init =? 0 then mret (-1)
  else
    glewInit;;
    window ← glfwCreateWindow 640 480 "Hello World" NULL NULL;
    if window =? NULL then
      glfwTerminate;;
      mret (-1)
    else
      glfwMakeContextCurrent window;;
      glewInit;;
      version ← glGetString GL_VERSION;
      cout_ptr version;;
      endl;;
      buffer ← glGenBuffers 1;
      glBindBuffer GL_ARRAY_BUFFER buffer;;
      glBufferData GL_ARRAY_BUFFER (6 * sizeof_float) positions GL_STATIC_DRAW;;
      glEnableVertexAttribArray 0;;
      glVertexAttribPointer 0 2 GL_FLOAT GL_FALSE (2 * sizeof_float) 0;;
      shader ← CreateShader vertexShader fragmentShader;
      glUseProgram shader;;
      frame_loop fuel window;;
      glDeleteProgram shader;;
      glfwTerminate;;
      mret 0.

End Program.

(* ===================================================================== *)
(** ** Runs in closed form *)
(* ===================================================================== *)

(** The world after a list of calls has been issued one after the other. *)
Definition steps (d : Driver) (l : list Call.t) (w : World) : World :=
  fold_left (λ w c, step d c w) l w.

(** The context after a list of calls. *)
Definition gl_steps (d : Driver) (l : list Call.t) (g : GLState) : GLState :=
  fold_left (λ g c, gl_exec d c g) l g.

Section Traces.

Variable d : Driver.

Definition shader_name (type : Z) : Z := to_uint (glCreateShader_name d type).
Definition program_name : Z := to_uint (glCreateProgram_name d).
Definition buffer_name : Z := to_uint (glGenBuffers_name d).

(** The compile status flag reported for a source is [GL_FALSE]. *)
Definition failed (type : Z) (source : string) : bool :=
  compile_status d type (c_str source) =? GL_FALSE.

Definition log_of (type : Z) (source : string) : string :=
  compile_log d type (c_str source).

(** What one call of [CompileShader] issues, prints and hands to
    [CreateShader]. *)
Definition compile_calls (type : Z) (source : string) : list Call.t :=
  let id := shader_name type in
  [ Call.glCreateShader type;
    Call.glShaderSource id 1 (c_str source);
    Call.glCompileShader id;
    Call.glGetShaderiv id GL_COMPILE_STATUS ] ++
  (if failed type source then
     [ Call.glGetShaderiv id GL_INFO_LOG_LENGTH;
       Call.glGetShaderInfoLog id
         (Z.of_nat (String.length (log_of type source)) + 1);
       Call.glDeleteShader id ]
   else []).

Definition diagnostic (type : Z) (source : string) : string :=
  if failed type source then
    "(EE) Failed to compile " +:+
    (if type =? GL_VERTEX_SHADER then "vertex" else "fragment") +:+
    "shader:" +:+ newline +:+
    c_str (log_of type source) +:+ newline
  else EmptyString.

Definition handle (type : Z) (source : string) : Z :=
  if failed type source then 0 else shader_name type.

(** [CompileShader] runs into no undefined behaviour: the shader object
    exists, so that its status is reported, and a failed compilation
    leaves a log. *)
Definition compile_defined (type : Z) (source : string) : Prop :=
  shader_name type ≠ 0 ∧
  (failed type source = true → log_of type source ≠ EmptyString).

(** What [CreateShader] issues. *)
Definition create_calls (vertexShader fragmentShader : string) : list Call.t :=
  let vs := handle GL_VERTEX_SHADER vertexShader in
  let fs := handle GL_FRAGMENT_SHADER fragmentShader in
  [ Call.glCreateProgram ] ++
  compile_calls GL_VERTEX_SHADER vertexShader ++
  compile_calls GL_FRAGMENT_SHADER fragmentShader ++
  [ Call.glAttachShader program_name vs;
    Call.glAttachShader program_name fs;
    Call.glLinkProgram program_name;
    Call.glValidateProgram program_name;
    Call.glDeleteShader vs;
    Call.glDeleteShader fs ].

(** The graphics and window calls of one pass through the loop body. *)
Definition frame_calls (window : Z) : list Call.t :=
  [ Call.glClearColor 0.2%Q 0.2%Q 0.3%Q 1.0%Q;
    Call.glClear GL_COLOR_BUFFER_BIT;
    Call.glDrawArrays GL_TRIANGLES 0 3;
    Call.glfwSwapBuffers window;
    Call.glfwPollEvents ].

(** One iteration: the loop condition, then the body. *)
Definition iteration (window : Z) : list Call.t :=
  Call.glfwWindowShouldClose window :: frame_calls window.

Definition iterations (n : nat) (window : Z) : list Call.t :=
  concat (replicate n (iteration window)).

(** What [main] issues before it builds the shaders. *)
Definition configure_calls : list Call.t :=
  [ Call.glfwInit;
    Call.glewInit;
    Call.glfwCreateWindow 640 480 "Hello World" NULL NULL;
    Call.glfwMakeContextCurrent (glfwCreateWindow_result d);
    Call.glewInit;
    Call.glGetString GL_VERSION;
    Call.glGenBuffers 1;
    Call.glBindBuffer GL_ARRAY_BUFFER buffer_name;
    Call.glBufferData GL_ARRAY_BUFFER 24 positions GL_STATIC_DRAW;
    Call.glEnableVertexAttribArray 0;
    Call.glVertexAttribPointer 0 2 GL_FLOAT GL_FALSE 8 0 ].

(** What [main] issues before it enters the loop, and what it prints. *)
Definition setup_calls : list Call.t :=
  configure_calls ++
  create_calls vertexShader fragmentShader ++
  [ Call.glUseProgram program_name ].

Definition setup_output : string :=
  default EmptyString (glGetString_result d) +:+ newline +:+
  diagnostic GL_VERTEX_SHADER vertexShader +:+
  diagnostic GL_FRAGMENT_SHADER fragmentShader.

Definition setup_world : World :=
  print setup_output (steps d setup_calls initial_world).

(** [main] gets as far as the loop: the library initialises, the window
    exists, the version string is there and neither compilation runs
    into undefined behaviour. *)
Definition starts : Prop :=
  glfwInit_result d ≠ 0 ∧
  glfwCreateWindow_result d ≠ NULL ∧
  is_Some (glGetString_result d) ∧
  compile_defined GL_VERTEX_SHADER vertexShader ∧
  compile_defined GL_FRAGMENT_SHADER fragmentShader.

End Traces.

(** The two states of the frame loop, read off an outcome of the loop:
    still inside it, or left through the exit of the [while]. *)
Inductive LoopState : Type := Running | Closed.

Definition loop_state {A : Type} (o : outcome A) : option LoopState :=
  match o with
  | Looping _ => Some Running
  | Done _ _ => Some Closed
  | Undefined _ => None
  end.

(** What came back from a call that returned. *)
Definition returned {A : Type} (o : outcome A) : option A :=
  match o with Done a _ => Some a | _ => None end.

(* ===================================================================== *)
(** ** Views of the context *)
(* ===================================================================== *)

(** The part of the context that the setup of [main] establishes:
    everything but the clear colour. *)
Definition setup_state (g : GLState) :=
  (shaders g, programs g, buffers g, array_buffer g, attribs g,
   current_program g).





(** The shader object that a compilation leaves behind. *)
Definition compiled (d : Driver) (type : Z) (source : string) : Shader :=
  compile d (set_source (c_str source) (new_shader type)).

(** Which shaders each program has attached. *)
Definition attachments (g : GLState) : gmap Z (list Z) :=
  pg_attached <$> programs g.

(** Two contexts that differ at most in what linking and validation left
    behind: the status flags of the programs and the program in use. *)
Definition gl_agree (g1 g2 : GLState) : Prop :=
  shaders g1 = shaders g2 ∧ attachments g1 = attachments g2.

Definition agree (w1 w2 : World) : Prop :=
  calls w1 = calls w2 ∧ console w1 = console w2 ∧
  close_checks w1 = close_checks w2 ∧ gl_agree (gl w1) (gl w2).

(** Two worlds with the same calls and the same console. *)
Definition agree_output (w1 w2 : World) : Prop :=
  calls w1 = calls w2 ∧ console w1 = console w2.

(** Two outcomes of the same kind, with the same value, in related
    worlds. *)
Definition related {A : Type} (R : World → World → Prop)
    (o1 o2 : outcome A) : Prop :=
  match o1, o2 with
  | Done a1 w1, Done a2 w2 => a1 = a2 ∧ R w1 w2
  | Undefined w1, Undefined w2 => R w1 w2
  | Looping w1, Looping w2 => R w1 w2
  | _, _ => False
  end.

(** The calls that decide which program is in use, the calls that delete
    a program, and the calls that decide whether a program counts as
    linked. *)
Definition selects_program (c : Call.t) : bool :=
  match c with Call.glUseProgram _ => true | _ => false end.

Definition deletes_program (c : Call.t) : bool :=
  match c with Call.glDeleteProgram _ => true | _ => false end.

Definition relinks (c : Call.t) : bool :=
  match c with
  | Call.glCreateProgram | Call.glLinkProgram _ | Call.glDeleteProgram _ =>
      true
  | _ => false
  end.

(* ===================================================================== *)
(** ** Some drivers *)
(* ===================================================================== *)

(** A driver on which everything succeeds; the close request arrives
    while the second frame is shown. *)
Definition working_driver : Driver :=
  {| glfwInit_result := GLFW_TRUE;
     glfwCreateWindow_result := 0x1000;
     glGetString_result := Some "3.3.0";
     glGenBuffers_name := 1;
     glCreateProgram_name := 1;
     glCreateShader_name := λ type, if type =? GL_VERTEX_SHADER then 2 else 3;
     compile_status := λ _ _, GL_TRUE;
     compile_log := λ _ _, EmptyString;
     link_ok := true;
     validate_ok := true;
     close_flag := λ k, if (k <? 2)%nat then 0 else 1 |}.

Definition with_compiler (status : Z -> string -> Z)
    (log : Z -> string -> string) (d : Driver) : Driver :=
  {| glfwInit_result := glfwInit_result d;
     glfwCreateWindow_result := glfwCreateWindow_result d;
     glGetString_result := glGetString_result d;
     glGenBuffers_name := glGenBuffers_name d;
     glCreateProgram_name := glCreateProgram_name d;
     glCreateShader_name := glCreateShader_name d;
     compile_status := status;
     compile_log := log;
     link_ok := link_ok d;
     validate_ok := validate_ok d;
     close_flag := close_flag d |}.

Definition with_linker (link validate : bool) (d : Driver) : Driver :=
  {| glfwInit_result := glfwInit_result d;
     glfwCreateWindow_result := glfwCreateWindow_result d;
     glGetString_result := glGetString_result d;
     glGenBuffers_name := glGenBuffers_name d;
     glCreateProgram_name := glCreateProgram_name d;
     glCreateShader_name := glCreateShader_name d;
     compile_status := compile_status d;
     compile_log := compile_log d;
     link_ok := link;
     validate_ok := validate;
     close_flag := close_flag d |}.

Definition with_startup (init window program : Z) (d : Driver) : Driver :=
  {| glfwInit_result := init;
     glfwCreateWindow_result := window;
     glGetString_result := glGetString_result d;
     glGenBuffers_name := glGenBuffers_name d;
     glCreateProgram_name := program;
     glCreateShader_name := glCreateShader_name d;
     compile_status := compile_status d;
     compile_log := compile_log d;
     link_ok := link_ok d;
     validate_ok := validate_ok d;
     close_flag := close_flag d |}.

(** The vertex shader is rejected with a message; so linking fails. *)
Definition rejecting_driver : Driver :=
  with_linker false false
    (with_compiler
       (λ type _, if type =? GL_VERTEX_SHADER then GL_FALSE else GL_TRUE)
       (λ type _, if type =? GL_VERTEX_SHADER
                  then "0:1(1): error: syntax error" else EmptyString)
       working_driver).

(** Every shader is rejected, and the compiler leaves no log. *)
Definition silent_driver : Driver :=
  with_compiler (λ _ _, GL_FALSE) (λ _ _, EmptyString) working_driver.

(** The library does not initialise. *)
Definition no_glfw_driver : Driver :=
  with_startup GLFW_FALSE 0x1000 1 working_driver.

(** The window cannot be created. *)
Definition no_window_driver : Driver :=
  with_startup GLFW_TRUE NULL 1 working_driver.

(** The program object cannot be created. *)
Definition no_program_driver : Driver :=
  with_startup GLFW_TRUE 0x1000 0 working_driver.

Definition with_shader_names (name : Z → Z) (d : Driver) : Driver :=
  {| glfwInit_result := glfwInit_result d;
     glfwCreateWindow_result := glfwCreateWindow_result d;
     glGetString_result := glGetString_result d;
     glGenBuffers_name := glGenBuffers_name d;
     glCreateProgram_name := glCreateProgram_name d;
     glCreateShader_name := name;
     compile_status := compile_status d;
     compile_log := compile_log d;
     link_ok := link_ok d;
     validate_ok := validate_ok d;
     close_flag := close_flag d |}.

Definition with_window (version : option string) (flag : nat → Z)
    (d : Driver) : Driver :=
  {| glfwInit_result := glfwInit_result d;
     glfwCreateWindow_result := glfwCreateWindow_result d;
     glGetString_result := version;
     glGenBuffers_name := glGenBuffers_name d;
     glCreateProgram_name := glCreateProgram_name d;
     glCreateShader_name := glCreateShader_name d;
     compile_status := compile_status d;
     compile_log := compile_log d;
     link_ok := link_ok d;
     validate_ok := validate_ok d;
     close_flag := flag |}.

(** Shader names above the range of [int]. *)
Definition high_names_driver : Driver :=
  with_shader_names
    (λ type, if type =? GL_VERTEX_SHADER then 0x80000002 else 0x80000003)
    working_driver.

(** No shader object can be created. *)
Definition no_shader_driver : Driver :=
  with_shader_names (λ _, 0) working_driver.

(** No version string: [glGetString] returns a null pointer. *)
Definition no_version_driver : Driver :=
  with_window None (close_flag working_driver) working_driver.

(** The window is never asked to close. *)
Definition patient_driver : Driver :=
  with_window (Some "3.3.0") (λ _, 0) working_driver.

(* ===================================================================== *)
(** ** Integers, strings and buffers *)
(* ===================================================================== *)

Lemma to_uint_to_int x : to_uint (to_int x) = to_uint x.
Proof.
  unfold to_uint, to_int.
  rewrite Zminus_mod_idemp_l.
  f_equal. lia.
Qed.

Lemma to_uint_idem x : to_uint (to_uint x) = to_uint x.
Proof. unfold to_uint. apply Zmod_mod. Qed.

Lemma append_empty_r (s : string) : s +:+ EmptyString = s.
Proof.
  induction s as [|c s IH]; [done|].
  change (String c (s +:+ EmptyString) = String c s). by rewrite IH.
Qed.

Lemma append_assoc (s1 s2 s3 : string) :
  (s1 +:+ s2) +:+ s3 = s1 +:+ (s2 +:+ s3).
Proof.
  induction s1 as [|c s1 IH]; [done|].
  change (String c ((s1 +:+ s2) +:+ s3) = String c (s1 +:+ (s2 +:+ s3))).
  by rewrite IH.
Qed.

Section Worlds.
Variable d : Driver.

Lemma print_empty w : print EmptyString w = w.
Proof. destruct w. unfold print. simpl. by rewrite append_empty_r. Qed.

Lemma print_print s1 s2 w : print s2 (print s1 w) = print (s1 +:+ s2) w.
Proof. unfold print. simpl. by rewrite append_assoc. Qed.

Lemma step_print c s w : step d c (print s w) = print s (step d c w).
Proof. reflexivity. Qed.

Lemma steps_print l s w : steps d l (print s w) = print s (steps d l w).
Proof.
  revert w. induction l as [|c l IH]; intros w; [done|].
  simpl. rewrite step_print. apply IH.
Qed.

Lemma steps_app l1 l2 w : steps d (l1 ++ l2) w = steps d l2 (steps d l1 w).
Proof. apply fold_left_app. Qed.

Lemma steps_cons c l w : steps d (c :: l) w = steps d l (step d c w).
Proof. reflexivity. Qed.

Lemma steps_snoc l c w : steps d (l ++ [c]) w = step d c (steps d l w).
Proof. by rewrite steps_app. Qed.

Lemma calls_steps l w : calls (steps d l w) = calls w ++ l.
Proof.
  revert w. induction l as [|c l IH]; intros w; simpl.
  - by rewrite app_nil_r.
  - rewrite IH. simpl. by rewrite <- app_assoc.
Qed.

Lemma console_steps l w : console (steps d l w) = console w.
Proof.
  revert w. induction l as [|c l IH]; intros w; simpl; [done|].
  by rewrite IH.
Qed.

Lemma gl_steps_eq l w : gl (steps d l w) = gl_steps d l (gl w).
Proof.
  revert w. induction l as [|c l IH]; intros w; simpl; [done|].
  by rewrite IH.
Qed.

Lemma close_checks_steps l w :
  close_checks (steps d l w) = (close_checks w + count is_close_check l)%nat.
Proof.
  revert w. induction l as [|c l IH]; intros w; simpl.
  - unfold count. simpl. lia.
  - rewrite IH. unfold count. simpl. destruct (is_close_check c); simpl; lia.
Qed.
End Worlds.

Lemma read_stored (s : string) (rest : buffer) :
  read_cstr (map Some (list_ascii_of_string s) ++ [Some NUL] ++ rest)
  = Some (c_str s).
Proof.
  induction s as [|c s IH]; simpl in *; [done|].
  destruct (Ascii.eqb c NUL); [done|]. by rewrite IH.
Qed.

(* ===================================================================== *)
(** ** The functions of the program in closed form *)
(* ===================================================================== *)

Section Shaders.
Variable d : Driver.

Lemma compiled_lookup type src n g :
  shader_name d type ≠ 0 →
  shaders
    (gl_exec d (Call.glCompileShader (shader_name d type))
       (gl_exec d (Call.glShaderSource (shader_name d type) n src)
          (gl_exec d (Call.glCreateShader type) g)))
    !! shader_name d type
  = Some (compile d (set_source src (new_shader type))).
Proof.
  intros Hid. unfold gl_exec. fold (shader_name d type).
  apply Z.eqb_neq in Hid. rewrite Hid. unfold with_shaders. simpl.
  rewrite !lookup_alter_eq, lookup_insert_eq. done.
Qed.

Lemma info_log_length_pos (s : Shader) :
  sh_log s ≠ EmptyString →
  info_log_length s = Z.of_nat (String.length (sh_log s)) + 1.
Proof.
  intros Hne. unfold info_log_length.
  destruct (String.eqb_spec (sh_log s) EmptyString); [done | done].
Qed.

Lemma length_list_ascii (s : string) :
  length (list_ascii_of_string s) = String.length s.
Proof. induction s as [|c s IH]; simpl; [done | by rewrite IH]. Qed.

Lemma CompileShader_run type source w :
  compile_defined d type source →
  CompileShader d type source w =
    Done (if failed d type source then 0 else to_int (shader_name d type))
         (print (diagnostic d type source)
            (steps d (compile_calls d type source) w)).
Proof.
  intros [Hid Hlog].
  unfold CompileShader, glCreateShader, glShaderSource, glCompileShader,
    glGetShaderiv, glGetShaderInfoLog, glDeleteShader, call, ask, load.
  unfold mbind, M_bind, mret, M_ret.
  fold (shader_name d type).
  set (id := shader_name d type) in *.
  set (w3 := step d (Call.glCompileShader id) _).
  assert (Hsh : shaders (gl w3) !! id
                = Some (compile d (set_source (c_str source)
                                   (new_shader type))))
    by (apply compiled_lookup; done).
  change (shaders (gl (step d (Call.glGetShaderiv id GL_COMPILE_STATUS) w3)))
    with (shaders (gl w3)).
  rewrite Hsh.
  change (GL_COMPILE_STATUS =? GL_COMPILE_STATUS) with true. cbv iota.
  change (sh_status (compile d (set_source (c_str source) (new_shader type))))
    with (compile_status d type (c_str source)).
  unfold diagnostic, compile_calls, log_of, failed in *.
  fold id.
  destruct (compile_status d type (c_str source) =? GL_FALSE) eqn:Hst.
  - specialize (Hlog eq_refl).
    set (w4 := step d (Call.glGetShaderiv id GL_COMPILE_STATUS) w3).
    change (shaders (gl (step d (Call.glGetShaderiv id GL_INFO_LOG_LENGTH) w4)))
      with (shaders (gl w3)).
    rewrite Hsh.
    change (GL_INFO_LOG_LENGTH =? GL_COMPILE_STATUS) with false.
    change (GL_INFO_LOG_LENGTH =? GL_INFO_LOG_LENGTH) with true. cbv iota.
    rewrite info_log_length_pos by done.
    change (sh_log (compile d (set_source (c_str source) (new_shader type))))
      with (compile_log d type (c_str source)).
    set (log := compile_log d type (c_str source)) in *.
    set (n := Z.of_nat (String.length log) + 1).
    unfold sizeof_char. rewrite Z.mul_1_r.
    unfold alloca.
    assert (Hn0 : (n <? 0) = false) by (apply Z.ltb_ge; lia). rewrite Hn0.
    unfold mret, M_ret. cbv beta iota.
    set (w5 := step d (Call.glGetShaderiv id GL_INFO_LOG_LENGTH) w4).
    change (shaders (gl (step d (Call.glGetShaderInfoLog id n) w5)))
      with (shaders (gl w3)).
    rewrite Hsh. cbv beta iota.
    change (sh_log (compile d (set_source (c_str source) (new_shader type))))
      with log.
    assert (Hn1 : (n =? 0) = false) by (apply Z.eqb_neq; lia).
    rewrite ?Hn0, Hn1.
    rewrite length_replicate.
    assert (Hn2 : (Z.of_nat (Z.to_nat n) <? n) = false)
      by (apply Z.ltb_ge; lia).
    rewrite Hn2. cbv beta iota.
    assert (Htake : take (Z.to_nat (n - 1)) (list_ascii_of_string log)
                    = list_ascii_of_string log).
    { apply firstn_all2. rewrite length_list_ascii. lia. }
    rewrite Htake.
    unfold cout_cstr, store_cstr. rewrite read_stored.
    unfold endl, cout.
    rewrite !step_print, !print_print.
    reflexivity.
  - rewrite print_empty. reflexivity.
Qed.

Lemma handle_uint type source :
  to_uint (if failed d type source then 0 else to_int (shader_name d type))
  = handle d type source.
Proof.
  unfold handle. destruct (failed d type source); [done|].
  unfold shader_name. by rewrite to_uint_to_int, to_uint_idem.
Qed.

Lemma CreateShader_run vsrc fsrc w :
  compile_defined d GL_VERTEX_SHADER vsrc →
  compile_defined d GL_FRAGMENT_SHADER fsrc →
  CreateShader d vsrc fsrc w =
    Done (program_name d)
      (print (diagnostic d GL_VERTEX_SHADER vsrc +:+
              diagnostic d GL_FRAGMENT_SHADER fsrc)
         (steps d (create_calls d vsrc fsrc) w)).
Proof.
  intros Hv Hf.
  unfold CreateShader, glCreateProgram, glAttachShader, glLinkProgram,
    glValidateProgram, glDeleteShader, call.
  unfold mbind, M_bind, mret, M_ret.
  rewrite (CompileShader_run _ _ _ Hv), (CompileShader_run _ _ _ Hf).
  rewrite !handle_uint.
  repeat first [rewrite step_print | rewrite steps_print | rewrite print_print].
  unfold create_calls. rewrite !steps_app. reflexivity.
Qed.

Lemma render_frame_run window w :
  render_frame d window w = Done () (steps d (frame_calls window) w).
Proof. reflexivity. Qed.

Lemma close_checks_iteration window w :
  close_checks (steps d (iteration window) w) = S (close_checks w).
Proof. reflexivity. Qed.

Lemma iterations_S n window :
  iterations (S n) window = iteration window ++ iterations n window.
Proof. reflexivity. Qed.

Lemma frame_loop_step fuel window w :
  close_flag d (close_checks w) = 0 →
  frame_loop d (S fuel) window w
  = frame_loop d fuel window (steps d (iteration window) w).
Proof.
  intros H0. simpl. unfold glfwWindowShouldClose, ask, call at 1.
  unfold mbind, M_bind, mret, M_ret. rewrite H0. reflexivity.
Qed.

Lemma frame_loop_exit fuel window w :
  close_flag d (close_checks w) ≠ 0 →
  frame_loop d (S fuel) window w
  = Done () (step d (Call.glfwWindowShouldClose window) w).
Proof.
  intros H0. simpl. unfold glfwWindowShouldClose, ask, call at 1.
  unfold mbind, M_bind, mret, M_ret.
  apply Z.eqb_neq in H0. rewrite H0. reflexivity.
Qed.

Lemma frame_loop_running n window w :
  (∀ k, (k < n)%nat → close_flag d (close_checks w + k) = 0) →
  frame_loop d n window w = Looping (steps d (iterations n window) w).
Proof.
  revert w. induction n as [|n IH]; intros w Hopen; [done|].
  rewrite frame_loop_step.
  - rewrite IH, iterations_S, steps_app; [done|].
    intros k Hk. rewrite close_checks_iteration.
    replace (S (close_checks w) + k)%nat with (close_checks w + S k)%nat by lia.
    apply Hopen. lia.
  - specialize (Hopen 0%nat). rewrite Nat.add_0_r in Hopen. apply Hopen. lia.
Qed.

Lemma frame_loop_closing n fuel window w :
  (∀ k, (k < n)%nat → close_flag d (close_checks w + k) = 0) →
  close_flag d (close_checks w + n) ≠ 0 →
  (n < fuel)%nat →
  frame_loop d fuel window w
  = Done ()
      (steps d (iterations n window ++ [Call.glfwWindowShouldClose window]) w).
Proof.
  revert w fuel. induction n as [|n IH]; intros w fuel Hopen Hclose Hfuel.
  - destruct fuel as [|fuel]; [lia|].
    rewrite Nat.add_0_r in Hclose. by rewrite frame_loop_exit.
  - destruct fuel as [|fuel]; [lia|].
    rewrite frame_loop_step.
    + rewrite (IH _ fuel).
      * by rewrite iterations_S, <- app_assoc, (steps_app _ (iteration window)).
      * intros k Hk. rewrite close_checks_iteration.
        replace (S (close_checks w) + k)%nat
          with (close_checks w + S k)%nat by lia.
        apply Hopen. lia.
      * rewrite close_checks_iteration.
        by replace (S (close_checks w) + n)%nat
          with (close_checks w + S n)%nat by lia.
      * lia.
    + specialize (Hopen 0%nat). rewrite Nat.add_0_r in Hopen. apply Hopen. lia.
Qed.

Lemma main_run fuel :
  starts d →
  main d fuel initial_world =
    (frame_loop d fuel (glfwCreateWindow_result d);;
     glDeleteProgram d (program_name d);;
     glfwTerminate d;;
     mret 0) (setup_world d).
Proof.
  intros (Hinit & Hwin & [version Hver] & Hv & Hf).
  unfold main, glfwInit, glewInit, glfwCreateWindow, glfwTerminate,
    glfwMakeContextCurrent, glGetString, glGenBuffers, glBindBuffer,
    glBufferData, glEnableVertexAttribArray, glVertexAttribPointer,
    glUseProgram, call, cout_ptr, endl, cout.
  unfold mbind, M_bind, mret, M_ret.
  apply Z.eqb_neq in Hinit, Hwin. rewrite Hinit, Hwin, Hver.
  rewrite (CreateShader_run _ _ _ Hv Hf).
  unfold setup_world, setup_output, setup_calls. rewrite Hver.
  rewrite !steps_app.
  repeat first [rewrite step_print | rewrite steps_print | rewrite print_print].
  reflexivity.
Qed.
End Shaders.
(* ===================================================================== *)
(** ** The frame loop *)
(* ===================================================================== *)

Section Frames.
Variable d : Driver.

Lemma iteration_setup_state window g :
  setup_state (gl_steps d (iteration window) g) = setup_state g.
Proof. reflexivity. Qed.

Lemma iterations_setup_state n window g :
  setup_state (gl_steps d (iterations n window) g) = setup_state g.
Proof.
  revert g. induction n as [|n IH]; intros g; [done|].
  rewrite iterations_S. unfold gl_steps. rewrite fold_left_app.
  fold (gl_steps d (iteration window) g).
  fold (gl_steps d (iterations n window) (gl_steps d (iteration window) g)).
  by rewrite IH.
Qed.

(** The loop in closed form, whatever the driver reports: it has gone
    through some number of iterations and is either still running, the
    budget being used up, or has left after one more look at the flag. *)
Lemma frame_loop_shape fuel window w :
  ∃ n : nat,
    (n = fuel ∧
     frame_loop d fuel window w = Looping (steps d (iterations n window) w)) ∨
    ((n < fuel)%nat ∧
     frame_loop d fuel window w
     = Done ()
         (steps d (iterations n window ++ [Call.glfwWindowShouldClose window])
            w)).
Proof.
  revert w. induction fuel as [|fuel IH]; intros w.
  - exists 0%nat. by left.
  - destruct (Z.eq_dec (close_flag d (close_checks w)) 0) as [H0|H0].
    + rewrite (frame_loop_step _ _ _ _ H0).
      destruct (IH (steps d (iteration window) w)) as [n [[-> Hn]|[Hlt Hn]]].
      * exists (S fuel). left. split; [done|].
        by rewrite Hn, iterations_S, steps_app.
      * exists (S n). right. split; [lia|].
        by rewrite Hn, iterations_S, <- app_assoc,
          (steps_app _ (iteration window)).
    + exists 0%nat. right. split; [lia|]. by rewrite frame_loop_exit.
Qed.
End Frames.


(* ===================================================================== *)
(** ** Counting calls *)
(* ===================================================================== *)

Section Counting.
Variable d : Driver.

Lemma count_app p l1 l2 : count p (l1 ++ l2) = (count p l1 + count p l2)%nat.
Proof. unfold count. by rewrite List.filter_app, length_app. Qed.


Lemma count_iterations p n window :
  count p (iterations n window) = (n * count p (iteration window))%nat.
Proof.
  induction n as [|n IH]; [done|].
  rewrite iterations_S, count_app, IH. lia.
Qed.

(** Before the loop nothing is drawn, the close flag is not read, and
    the vertex data is uploaded once. *)
Lemma setup_calls_quiet :
  List.filter is_draw (setup_calls d) = [] ∧
  List.filter is_close_check (setup_calls d) = [] ∧
  List.filter is_upload (setup_calls d)
  = [Call.glBufferData GL_ARRAY_BUFFER 24 positions GL_STATIC_DRAW].
Proof.
  unfold setup_calls, create_calls, compile_calls.
  destruct (failed d GL_VERTEX_SHADER vertexShader),
    (failed d GL_FRAGMENT_SHADER fragmentShader); done.
Qed.

Lemma calls_setup_world : calls (setup_world d) = setup_calls d.
Proof.
  change (calls (steps d (setup_calls d) initial_world) = setup_calls d).
  by rewrite calls_steps.
Qed.

Lemma close_checks_setup_world : close_checks (setup_world d) = 0%nat.
Proof.
  change (close_checks (steps d (setup_calls d) initial_world) = 0%nat).
  rewrite close_checks_steps. unfold count.
  by rewrite (proj1 (proj2 setup_calls_quiet)).
Qed.
End Counting.


(* ===================================================================== *)
(** ** Runs of [main] *)
(* ===================================================================== *)

Section MainRuns.
Variable d : Driver.

Lemma main_running fuel :
  starts d →
  (∀ k, (k < fuel)%nat → close_flag d k = 0) →
  main d fuel initial_world
  = Looping
      (steps d (iterations fuel (glfwCreateWindow_result d)) (setup_world d)).
Proof.
  intros Hstarts Hopen. rewrite (main_run d fuel Hstarts).
  unfold mbind, M_bind. rewrite frame_loop_running; [done|].
  intros k Hk. rewrite close_checks_setup_world. by apply Hopen.
Qed.

Lemma main_closing n fuel :
  starts d →
  (∀ k, (k < n)%nat → close_flag d k = 0) →
  close_flag d n ≠ 0 →
  (n < fuel)%nat →
  main d fuel initial_world
  = Done 0
      (steps d
         (iterations n (glfwCreateWindow_result d) ++
          [ Call.glfwWindowShouldClose (glfwCreateWindow_result d);
            Call.glDeleteProgram (program_name d);
            Call.glfwTerminate ])
         (setup_world d)).
Proof.
  intros Hstarts Hopen Hclose Hfuel. rewrite (main_run d fuel Hstarts).
  unfold mbind, M_bind.
  rewrite (frame_loop_closing d n fuel).
  - unfold glDeleteProgram, glfwTerminate, call, mret, M_ret.
    by rewrite !steps_app.
  - intros k Hk. rewrite close_checks_setup_world. by apply Hopen.
  - by rewrite close_checks_setup_world.
  - done.
Qed.
End MainRuns.


Section Whole.
Variable d : Driver.

Lemma frame_loop_setup_state fuel window w :
  setup_state (gl (world_of (frame_loop d fuel window w))) = setup_state (gl w).
Proof.
  destruct (frame_loop_shape d fuel window w) as [n [[-> Hn]|[Hlt Hn]]];
    rewrite Hn; simpl world_of.
  - rewrite gl_steps_eq. apply iterations_setup_state.
  - rewrite steps_app, gl_steps_eq. simpl gl_steps. rewrite gl_steps_eq.
    apply iterations_setup_state.
Qed.

(** Every run of [main] that gets as far as the loop, in closed form. *)
Lemma main_shape fuel :
  starts d →
  let window := glfwCreateWindow_result d in
  ∃ n : nat,
    (n <= fuel)%nat ∧
    (main d fuel initial_world
     = Looping (steps d (iterations n window) (setup_world d)) ∨
     main d fuel initial_world
     = Done 0
         (steps d
            (iterations n window ++
             [ Call.glfwWindowShouldClose window;
               Call.glDeleteProgram (program_name d);
               Call.glfwTerminate ])
            (setup_world d))).
Proof.
  intros Hstarts window. rewrite (main_run d fuel Hstarts).
  unfold mbind, M_bind. fold window.
  destruct (frame_loop_shape d fuel window (setup_world d))
    as [n [[-> Hn]|[Hlt Hn]]]; rewrite Hn.
  - exists fuel. split; [done|]. by left.
  - exists n. split; [lia|]. right.
    unfold glDeleteProgram, glfwTerminate, call, mret, M_ret.
    by rewrite !steps_app.
Qed.

Lemma setup_state_eq g g' :
  setup_state g = setup_state g' →
  buffers g = buffers g' ∧ array_buffer g = array_buffer g' ∧
  attribs g = attribs g' ∧ current_program g = current_program g'.
Proof. unfold setup_state. by intros [= _ _ -> -> -> ->]. Qed.


End Whole.


(* ===================================================================== *)
(** ** The vertex data *)
(* ===================================================================== *)

Section VertexData.
Variable d : Driver.






End VertexData.

(* ===================================================================== *)
(** ** The objects of a built program *)
(* ===================================================================== *)

Section Objects.
Variable d : Driver.

Lemma gl_steps_app l1 l2 g :
  gl_steps d (l1 ++ l2) g = gl_steps d l2 (gl_steps d l1 g).
Proof. apply fold_left_app. Qed.

Lemma is_attached_intro g program p shader :
  programs g !! program = Some p → shader ∈ pg_attached p →
  is_attached g shader = true.
Proof.
  intros Hp Hin. unfold is_attached. apply bool_decide_eq_true_2.
  by exists program, p.
Qed.

(** Creating, sourcing and compiling a shader touches that shader only. *)
Lemma compile_sequence type source g :
  shader_name d type ≠ 0 →
  let id := shader_name d type in
  let g' :=
    gl_steps d
      [ Call.glCreateShader type; Call.glShaderSource id 1 (c_str source);
        Call.glCompileShader id; Call.glGetShaderiv id GL_COMPILE_STATUS ]
      g in
  programs g' = programs g ∧
  shaders g' !! id = Some (compiled d type source) ∧
  ∀ other, other ≠ id → shaders g' !! other = shaders g !! other.
Proof.
  intros Hid id g'. unfold g', gl_steps. simpl fold_left.
  fold (shader_name d type). fold id.
  apply Z.eqb_neq in Hid. fold id in Hid. rewrite Hid.
  split; [done|]. simpl. split.
  - by rewrite !lookup_alter_eq, lookup_insert_eq.
  - intros other Hother.
    by rewrite !lookup_alter_ne, lookup_insert_ne.
Qed.

Lemma attach_shader program shader p g :
  programs g !! program = Some p →
  is_Some (shaders g !! shader) →
  shader ∉ pg_attached p →
  let g' := gl_exec d (Call.glAttachShader program shader) g in
  shaders g' = shaders g ∧
  programs g' !! program
  = Some {| pg_attached := pg_attached p ++ [shader];
            pg_linked := pg_linked p; pg_valid := pg_valid p;
            pg_flagged := pg_flagged p |}.
Proof.
  intros Hp Hs Hnew g'. unfold g', gl_exec.
  rewrite bool_decide_eq_true_2 by done. split; [done|]. simpl.
  rewrite lookup_alter_eq, Hp. simpl. unfold attach.
  by rewrite bool_decide_eq_false_2.
Qed.

Lemma delete_attached_shader program shader p g :
  programs g !! program = Some p →
  shader ∈ pg_attached p →
  let g' := gl_exec d (Call.glDeleteShader shader) g in
  programs g' = programs g ∧
  shaders g' !! shader = flag_shader <$> shaders g !! shader ∧
  ∀ other, other ≠ shader → shaders g' !! other = shaders g !! other.
Proof.
  intros Hp Hin g'. unfold g', gl_exec.
  rewrite (is_attached_intro g program p shader Hp Hin).
  split; [done|]. simpl. split.
  - by rewrite lookup_alter_eq.
  - intros other Hother. by rewrite lookup_alter_ne.
Qed.

(** The objects that a successful [CreateShader] leaves in the context:
    one program with the two shaders attached, in order, linked and
    validated as the driver decides, and the two compiled shaders, kept
    alive by the attachment and flagged for deletion. *)
Lemma CreateShader_objects vsrc fsrc g :
  let program := program_name d in
  let vs := shader_name d GL_VERTEX_SHADER in
  let fs := shader_name d GL_FRAGMENT_SHADER in
  failed d GL_VERTEX_SHADER vsrc = false →
  failed d GL_FRAGMENT_SHADER fsrc = false →
  program ≠ 0 → vs ≠ 0 → fs ≠ 0 → vs ≠ fs →
  let g' := gl_steps d (create_calls d vsrc fsrc) g in
  programs g' !! program
  = Some {| pg_attached := [vs; fs]; pg_linked := link_ok d;
            pg_valid := validate_ok d; pg_flagged := false |} ∧
  shaders g' !! vs = Some (flag_shader (compiled d GL_VERTEX_SHADER vsrc)) ∧
  shaders g' !! fs = Some (flag_shader (compiled d GL_FRAGMENT_SHADER fsrc)).
Proof.
  intros program vs fs Hvf Hff Hp Hvs Hfs Hne g'.
  unfold g', create_calls, compile_calls, handle. rewrite Hvf, Hff.
  fold program vs fs. rewrite !app_nil_r.
  rewrite !gl_steps_app.
  (* program creation *)
  set (g1 := gl_steps d [Call.glCreateProgram] g).
  assert (H1 : programs g1 !! program = Some new_program).
  { unfold g1. simpl. fold (program_name d). fold program.
    apply Z.eqb_neq in Hp. rewrite Hp. simpl. apply lookup_insert_eq. }
  (* the two compilations *)
  destruct (compile_sequence GL_VERTEX_SHADER vsrc g1 Hvs) as (H2p & H2v & _).
  fold vs in H2p, H2v.
  set (g2 := gl_steps d [Call.glCreateShader GL_VERTEX_SHADER; _; _; _] g1)
    in *.
  destruct (compile_sequence GL_FRAGMENT_SHADER fsrc g2 Hfs)
    as (H3p & H3f & H3o).
  fold fs in H3p, H3f, H3o.
  set (g3 := gl_steps d [Call.glCreateShader GL_FRAGMENT_SHADER; _; _; _] g2)
    in *.
  assert (H3v : shaders g3 !! vs = Some (compiled d GL_VERTEX_SHADER vsrc))
    by (by rewrite H3o, H2v).
  assert (H3 : programs g3 !! program = Some new_program)
    by (by rewrite H3p, H2p).
  (* attachment, link, validation, deletion *)
  unfold gl_steps. cbn [fold_left].
  set (g4 := gl_exec d (Call.glAttachShader program vs) g3).
  destruct (attach_shader program vs new_program g3 H3) as (H4s & H4);
    [by rewrite H3v | by apply not_elem_of_nil |]. fold g4 in H4s, H4.
  set (g5 := gl_exec d (Call.glAttachShader program fs) g4).
  destruct (attach_shader program fs _ g4 H4) as (H5s & H5);
    [by rewrite H4s, H3f | simpl; intros Hin; apply list_elem_of_In in Hin;
     destruct Hin as [Heq|[]]; by apply Hne |].
  fold g5 in H5s, H5.
  cbn [pg_attached pg_linked pg_valid pg_flagged new_program app] in H5.
  set (g7 := gl_exec d (Call.glValidateProgram program)
               (gl_exec d (Call.glLinkProgram program) g5)).
  assert (H7 : programs g7 !! program
               = Some {| pg_attached := [vs; fs]; pg_linked := link_ok d;
                         pg_valid := validate_ok d; pg_flagged := false |}).
  { unfold g7, gl_exec. simpl. by rewrite !lookup_alter_eq, H5. }
  assert (H7s : shaders g7 = shaders g5) by done.
  set (g8 := gl_exec d (Call.glDeleteShader vs) g7).
  destruct (delete_attached_shader program vs _ g7 H7) as (H8p & H8v & H8o);
    [simpl; by constructor|]. fold g8 in H8p, H8v, H8o.
  destruct (delete_attached_shader program fs
              {| pg_attached := [vs; fs]; pg_linked := link_ok d;
                 pg_valid := validate_ok d; pg_flagged := false |} g8)
    as (H9p & H9f & H9o); [by rewrite H8p | simpl; by do 2 constructor |].
  rewrite H9p, H8p, H7. split; [done|]. split.
  - rewrite H9o, H8v, H7s, H5s, H4s, H3v by done. done.
  - rewrite H9f, H8o, H7s, H5s, H4s, H3f by done. done.
Qed.
End Objects.

(* ===================================================================== *)
(** ** Rejected shaders *)
(* ===================================================================== *)

Section Failure.
Variable d : Driver.

(** A rejected source with a log: the diagnostic is printed, the object is
    deleted and 0 comes back. *)
Lemma CompileShader_rejected type source w :
  shader_name d type ≠ 0 →
  failed d type source = true →
  log_of d type source ≠ EmptyString →
  let id := shader_name d type in
  CompileShader d type source w
  = Done 0
      (print
         ("(EE) Failed to compile " +:+
          (if type =? GL_VERTEX_SHADER then "vertex" else "fragment") +:+
          "shader:" +:+ newline +:+ c_str (log_of d type source) +:+ newline)
         (steps d
            [ Call.glCreateShader type;
              Call.glShaderSource id 1 (c_str source);
              Call.glCompileShader id;
              Call.glGetShaderiv id GL_COMPILE_STATUS;
              Call.glGetShaderiv id GL_INFO_LOG_LENGTH;
              Call.glGetShaderInfoLog id
                (Z.of_nat (String.length (log_of d type source)) + 1);
              Call.glDeleteShader id ]
            w)).
Proof.
  intros Hid Hfailed Hlog id.
  rewrite CompileShader_run by (split; done).
  unfold diagnostic, compile_calls. by rewrite Hfailed.
Qed.

(** A rejected source without a log: the message buffer has no byte, the
    driver writes nothing, and the buffer is printed all the same. *)
Lemma CompileShader_no_log type source w :
  shader_name d type ≠ 0 →
  failed d type source = true →
  log_of d type source = EmptyString →
  let id := shader_name d type in
  CompileShader d type source w
  = Undefined
      (print
         ("(EE) Failed to compile " +:+
          (if type =? GL_VERTEX_SHADER then "vertex" else "fragment") +:+
          "shader:" +:+ newline)
         (steps d
            [ Call.glCreateShader type;
              Call.glShaderSource id 1 (c_str source);
              Call.glCompileShader id;
              Call.glGetShaderiv id GL_COMPILE_STATUS;
              Call.glGetShaderiv id GL_INFO_LOG_LENGTH;
              Call.glGetShaderInfoLog id 0 ]
            w)).
Proof.
  intros Hid Hfailed Hlog id.
  unfold CompileShader, glCreateShader, glShaderSource, glCompileShader,
    glGetShaderiv, glGetShaderInfoLog, glDeleteShader, call, ask, load.
  unfold mbind, M_bind, mret, M_ret.
  fold (shader_name d type). fold id.
  set (w3 := step d (Call.glCompileShader id) _).
  assert (Hsh : shaders (gl w3) !! id
                = Some (compile d (set_source (c_str source)
                                   (new_shader type))))
    by (apply compiled_lookup; done).
  change (shaders (gl (step d (Call.glGetShaderiv id GL_COMPILE_STATUS) w3)))
    with (shaders (gl w3)).
  rewrite Hsh.
  change (GL_COMPILE_STATUS =? GL_COMPILE_STATUS) with true. cbv iota.
  change (sh_status (compile d (set_source (c_str source) (new_shader type))))
    with (compile_status d type (c_str source)).
  unfold failed in Hfailed. cbv beta iota. rewrite Hfailed.
  set (w4 := step d (Call.glGetShaderiv id GL_COMPILE_STATUS) w3).
  change (shaders (gl (step d (Call.glGetShaderiv id GL_INFO_LOG_LENGTH) w4)))
    with (shaders (gl w3)).
  rewrite Hsh.
  change (GL_INFO_LOG_LENGTH =? GL_COMPILE_STATUS) with false.
  change (GL_INFO_LOG_LENGTH =? GL_INFO_LOG_LENGTH) with true. cbv iota.
  unfold info_log_length.
  change (sh_log (compile d (set_source (c_str source) (new_shader type))))
    with (log_of d type source).
  rewrite Hlog.
  change (String.eqb EmptyString EmptyString) with true. cbv iota.
  change (0 * sizeof_char) with 0. unfold alloca.
  change (0 <? 0) with false. cbv beta iota.
  change (replicate (Z.to_nat 0) None) with (@nil (option ascii)).
  unfold mret, M_ret. cbv beta iota.
  set (w5 := step d (Call.glGetShaderiv id GL_INFO_LOG_LENGTH) w4).
  change (shaders (gl (step d (Call.glGetShaderInfoLog id 0) w5)))
    with (shaders (gl w3)).
  rewrite Hsh. cbv beta iota.
  change (0 <? 0) with false. change (0 =? 0) with true. cbv beta iota.
  unfold endl, cout, cout_cstr, read_cstr, undefined. cbv beta iota.
  rewrite !print_print. reflexivity.
Qed.
End Failure.


(* ===================================================================== *)
(** ** The linker is never consulted *)
(* ===================================================================== *)

Section Linker.
Variable d : Driver.
Variables link validate : bool.

(** The same driver with another linker. *)
Local Abbreviation d' := (with_linker link validate d).

Lemma is_attached_agree g1 g2 shader :
  attachments g1 = attachments g2 →
  is_attached g1 shader = is_attached g2 shader.
Proof.
  intros Hatt. unfold is_attached. apply bool_decide_ext.
  assert (Hone : ∀ g,
    map_Exists (λ _ p, shader ∈ pg_attached p) (programs g)
    ↔ map_Exists (λ _ l, shader ∈ l) (attachments g)).
  { intros g. unfold map_Exists, attachments. split.
    - intros (i & p & Hp & Hin). exists i, (pg_attached p).
      split; [|done]. by rewrite lookup_fmap, Hp.
    - intros (i & l & Hl & Hin). rewrite lookup_fmap in Hl.
      destruct (programs g !! i) as [p|] eqn:Hp; [|done].
      injection Hl as <-. by exists i, p. }
  by rewrite !Hone, Hatt.
Qed.

Lemma attachments_alter f program g :
  (∀ p, pg_attached (f p) = pg_attached p) →
  attachments (with_programs (alter f program) g) = attachments g.
Proof.
  intros Hf. unfold attachments. simpl. apply map_eq. intros i.
  rewrite !lookup_fmap. destruct (decide (i = program)) as [->|Hne].
  - rewrite lookup_alter_eq. destruct (programs g !! program); simpl; [|done].
    by rewrite Hf.
  - by rewrite lookup_alter_ne.
Qed.

Lemma attachments_attach shader program g1 g2 :
  attachments g1 = attachments g2 →
  attachments (with_programs (alter (attach shader) program) g1)
  = attachments (with_programs (alter (attach shader) program) g2).
Proof.
  intros Hatt. unfold attachments in *. simpl. apply map_eq. intros i.
  rewrite !lookup_fmap. destruct (decide (i = program)) as [->|Hne].
  - rewrite !lookup_alter_eq.
    pose proof (f_equal (λ m, m !! program) Hatt) as Hp. simpl in Hp.
    rewrite !lookup_fmap in Hp.
    destruct (programs g1 !! program) as [p1|],
      (programs g2 !! program) as [p2|];
      simpl in *; try done.
    injection Hp as Hp. unfold attach. rewrite Hp.
    destruct (bool_decide (shader ∈ pg_attached p2)); simpl; by rewrite ?Hp.
  - rewrite !lookup_alter_ne by done.
    pose proof (f_equal (λ m, m !! i) Hatt) as Hp. simpl in Hp.
    by rewrite !lookup_fmap in Hp.
Qed.

Lemma gl_exec_agree c g1 g2 :
  (∀ program, c ≠ Call.glDeleteProgram program) →
  gl_agree g1 g2 → gl_agree (gl_exec d' c g1) (gl_exec d c g2).
Proof.
  intros Hc [Hsh Hatt].
  destruct c; try (split; assumption); unfold gl_exec.
  - (* glBindBuffer *)
    destruct (target =? GL_ARRAY_BUFFER); [|done].
    destruct ((buffer =? 0) || bool_decide (is_Some (buffers g1 !! buffer))),
      ((buffer =? 0) || bool_decide (is_Some (buffers g2 !! buffer))); done.
  - (* glBufferData *)
    destruct ((target =? GL_ARRAY_BUFFER) && negb (array_buffer g1 =? 0)
              && (0 <=? size)),
      ((target =? GL_ARRAY_BUFFER) && negb (array_buffer g2 =? 0)
       && (0 <=? size)); done.
  - (* glCreateProgram *)
    change (glCreateProgram_name d') with (glCreateProgram_name d).
    destruct (to_uint (glCreateProgram_name d) =? 0); [done|].
    split; [done|]. unfold attachments in *. simpl.
    by rewrite !fmap_insert, Hatt.
  - (* glCreateShader *)
    change (glCreateShader_name d' type) with (glCreateShader_name d type).
    destruct (to_uint (glCreateShader_name d type) =? 0); [done|].
    split; [|done]. simpl. by rewrite Hsh.
  - (* glShaderSource *)
    split; [|done]. simpl. by rewrite Hsh.
  - (* glCompileShader *)
    split; [|done]. simpl. by rewrite Hsh.
  - (* glDeleteShader *)
    rewrite (is_attached_agree g1 g2 shader Hatt).
    destruct (is_attached g2 shader); (split; [|done]); simpl; by rewrite Hsh.
  - (* glAttachShader *)
    rewrite Hsh.
    destruct (bool_decide (is_Some (shaders g2 !! shader))); [|done].
    split; [done|]. by apply attachments_attach.
  - (* glLinkProgram *)
    split; [done|]. by rewrite !attachments_alter.
  - (* glValidateProgram *)
    split; [done|]. by rewrite !attachments_alter.
  - (* glUseProgram *)
    destruct (program =? 0); [done|].
    destruct (programs g1 !! program) as [p1|],
      (programs g2 !! program) as [p2|];
      try destruct (pg_linked p1); try destruct (pg_linked p2); done.
  - (* glDeleteProgram *)
    by destruct (Hc program).
Qed.

Lemma agree_output_of w1 w2 : agree w1 w2 → agree_output w1 w2.
Proof. by intros (? & ? & _). Qed.

Lemma related_bind {A B : Type} (R R' : World → World → Prop)
    (m1 m2 : M A) (k1 k2 : A → M B) w1 w2 :
  (∀ u1 u2, R u1 u2 → R' u1 u2) →
  related R (m1 w1) (m2 w2) →
  (∀ a u1 u2, R u1 u2 → related R' (k1 a u1) (k2 a u2)) →
  related R' ((m1 ≫= k1) w1) ((m2 ≫= k2) w2).
Proof.
  intros Hsub Hm Hk. unfold mbind, M_bind.
  destruct (m1 w1), (m2 w2); simpl in Hm; try done.
  - destruct Hm as [-> Hw]. by apply Hk.
  - by apply Hsub.
  - by apply Hsub.
Qed.

Lemma call_agree c w1 w2 :
  (∀ program, c ≠ Call.glDeleteProgram program) →
  agree w1 w2 → related agree (call d' c w1) (call d c w2).
Proof.
  intros Hc (Hcalls & Hcon & Hchk & Hgl). split; [done|].
  unfold agree, step; simpl. rewrite Hcalls, Hcon, Hchk.
  repeat split; try done; by apply gl_exec_agree.
Qed.

Lemma call_agree_output c w1 w2 :
  agree_output w1 w2 → related agree_output (call d' c w1) (call d c w2).
Proof.
  intros (Hcalls & Hcon). split; [done|].
  unfold agree_output, step; simpl. by rewrite Hcalls, Hcon.
Qed.

Lemma cout_agree s w1 w2 :
  agree w1 w2 → related agree (cout s w1) (cout s w2).
Proof.
  intros (Hcalls & Hcon & Hchk & Hgl). split; [done|].
  unfold agree, print; simpl. by rewrite Hcalls, Hcon, Hchk.
Qed.

Lemma mret_agree {A : Type} (R : World → World → Prop) (a : A) w1 w2 :
  R w1 w2 → related R ((mret a : M A) w1) ((mret a : M A) w2).
Proof. by split. Qed.

Lemma undefined_agree {A : Type} (R : World → World → Prop) w1 w2 :
  R w1 w2 → related R (@undefined A w1) (@undefined A w2).
Proof. done. Qed.

Lemma load_agree {A : Type} (x : option A) w1 w2 :
  agree w1 w2 → related agree (load x w1) (load x w2).
Proof. intros Hw. destruct x; [by split | done]. Qed.

Lemma alloca_agree n w1 w2 :
  agree w1 w2 → related agree (alloca n w1) (alloca n w2).
Proof. intros Hw. unfold alloca. destruct (n <? 0); [done | by split]. Qed.

Lemma ask_shader_agree shader w1 w2 :
  agree w1 w2 →
  related agree (ask (λ w, shaders (gl w) !! shader) w1)
                (ask (λ w, shaders (gl w) !! shader) w2).
Proof.
  intros Hw. split; [|done]. destruct Hw as (_ & _ & _ & Hsh & _).
  by rewrite Hsh.
Qed.

Ltac step_both :=
  first
    [ apply mret_agree; assumption
    | apply undefined_agree; assumption
    | apply call_agree; [discriminate | assumption]
    | apply cout_agree; assumption
    | apply load_agree; assumption
    | apply alloca_agree; assumption
    | apply ask_shader_agree; assumption
    | apply related_bind with (R := agree); [auto | | intros ? ? ? ?] ].

Lemma glGetShaderiv_agree shader pname params w1 w2 :
  agree w1 w2 →
  related agree (glGetShaderiv d' shader pname params w1)
                (glGetShaderiv d shader pname params w2).
Proof. intros Hw. unfold glGetShaderiv. repeat step_both. Qed.

Lemma glGetShaderInfoLog_agree shader bufSize len infoLog w1 w2 :
  agree w1 w2 →
  related agree (glGetShaderInfoLog d' shader bufSize len infoLog w1)
                (glGetShaderInfoLog d shader bufSize len infoLog w2).
Proof.
  intros Hw. unfold glGetShaderInfoLog. repeat step_both.
  match goal with
  | found : option Shader |- _ => destruct found as [s|]; [|by step_both]
  end.
  destruct (bufSize <? 0); [by step_both|].
  destruct (bufSize =? 0); [by step_both|].
  destruct (Z.of_nat (List.length infoLog) <? bufSize); by step_both.
Qed.

Lemma CompileShader_agree type source w1 w2 :
  agree w1 w2 →
  related agree (CompileShader d' type source w1)
                (CompileShader d type source w2).
Proof.
  intros Hw.
  unfold CompileShader, glCreateShader, glShaderSource, glCompileShader,
    glDeleteShader, endl, cout_cstr.
  change (glCreateShader_name d' type) with (glCreateShader_name d type).
  repeat first [apply glGetShaderiv_agree; assumption | step_both].
  match goal with
  | |- context [if ?result =? GL_FALSE then _ else _] =>
      destruct (result =? GL_FALSE); [|by step_both]
  end.
  repeat first [ apply glGetShaderiv_agree; assumption
               | apply glGetShaderInfoLog_agree; assumption
               | step_both ].
  match goal with
  | written : (option Z * buffer)%type |- _ => destruct written as [? message]
  end.
  repeat step_both.
  destruct (read_cstr message); repeat step_both.
Qed.

Lemma CreateShader_agree vsrc fsrc w1 w2 :
  agree w1 w2 →
  related agree (CreateShader d' vsrc fsrc w1) (CreateShader d vsrc fsrc w2).
Proof.
  intros Hw.
  unfold CreateShader, glCreateProgram, glAttachShader, glLinkProgram,
    glValidateProgram, glDeleteShader.
  change (glCreateProgram_name d') with (glCreateProgram_name d).
  repeat first [apply CompileShader_agree; assumption | step_both].
Qed.

Lemma render_frame_agree window w1 w2 :
  agree w1 w2 →
  related agree (render_frame d' window w1) (render_frame d window w2).
Proof.
  intros Hw.
  unfold render_frame, glClearColor, glClear, glDrawArrays, glfwSwapBuffers,
    glfwPollEvents.
  repeat step_both.
Qed.

Lemma glfwWindowShouldClose_agree window w1 w2 :
  agree w1 w2 →
  related agree (glfwWindowShouldClose d' window w1)
                (glfwWindowShouldClose d window w2).
Proof.
  intros Hw. unfold glfwWindowShouldClose.
  apply related_bind with (R := agree); [auto| |intros k u1 u2 Hu].
  - split; [|done]. by destruct Hw as (_ & _ & -> & _).
  - repeat step_both.
Qed.

Lemma frame_loop_agree fuel window w1 w2 :
  agree w1 w2 →
  related agree (frame_loop d' fuel window w1) (frame_loop d fuel window w2).
Proof.
  revert w1 w2. induction fuel as [|fuel IH]; intros w1 w2 Hw; [done|].
  simpl.
  apply related_bind with (R := agree);
    [auto | by apply glfwWindowShouldClose_agree | intros close u1 u2 Hu].
  destruct (close =? 0); [|by step_both].
  apply related_bind with (R := agree);
    [auto | by apply render_frame_agree | intros _ v1 v2 Hv].
  by apply IH.
Qed.

Lemma main_agree fuel :
  related agree_output (main d' fuel initial_world) (main d fuel initial_world).
Proof.
  assert (Hw : agree initial_world initial_world) by done.
  revert Hw. generalize initial_world at 1 3 as w1.
  generalize initial_world as w2. intros w2 w1 Hw.
  unfold main, glfwInit, glewInit, glfwCreateWindow, glfwTerminate,
    glfwMakeContextCurrent, glGetString, glGenBuffers, glBindBuffer,
    glBufferData, glEnableVertexAttribArray, glVertexAttribPointer,
    glUseProgram, glDeleteProgram, endl, cout_ptr.
  change (glfwInit_result d') with (glfwInit_result d).
  change (glfwCreateWindow_result d') with (glfwCreateWindow_result d).
  change (glGetString_result d') with (glGetString_result d).
  change (glGenBuffers_name d') with (glGenBuffers_name d).
  repeat first
    [ apply mret_agree; first [assumption | apply agree_output_of; assumption]
    | apply undefined_agree;
        first [assumption | apply agree_output_of; assumption]
    | apply related_bind with (R := agree);
        [ exact agree_output_of
        | solve [ repeat first [ apply CreateShader_agree; assumption
                               | apply frame_loop_agree; assumption
                               | step_both ] ]
        | intros ? ? ? ? ]
    | apply related_bind with (R := agree_output);
        [ auto
        | apply call_agree_output;
            first [assumption | apply agree_output_of; assumption]
        | intros ? ? ? ? ]
    | match goal with
      | |- context [if ?c then _ else _] => destruct c
      | |- context [match ?v with Some _ => _ | None => _ end] => destruct v
      end ].
Qed.
End Linker.

(* ===================================================================== *)
(** ** The claims of the specification *)
(* ===================================================================== *)

(** Claim C1, at an input where it fails.  The driver rejects the
    fragment shader [void main() {] and leaves no log, so the log length
    it reports is 0.  [CompileShader] then allocates a message buffer of
    no bytes, the driver writes nothing into it, and the buffer is printed
    all the same: after the headline, [CompileShader] reads a string that
    was never written.  The run ends there in undefined behaviour, before
    [glDeleteShader] and before any value is returned. *)
Theorem CompileShader_prints_unwritten_buffer :
  failed silent_driver GL_FRAGMENT_SHADER "void main() {" = true ∧
  CompileShader silent_driver GL_FRAGMENT_SHADER "void main() {" initial_world
  = Undefined
      (print ("(EE) Failed to compile fragmentshader:" +:+ newline)
         (steps silent_driver
            [ Call.glCreateShader GL_FRAGMENT_SHADER;
              Call.glShaderSource 3 1 "void main() {";
              Call.glCompileShader 3;
              Call.glGetShaderiv 3 GL_COMPILE_STATUS;
              Call.glGetShaderiv 3 GL_INFO_LOG_LENGTH;
              Call.glGetShaderInfoLog 3 0 ]
            initial_world)).
Proof.
  split; [reflexivity|].
  apply (CompileShader_no_log silent_driver GL_FRAGMENT_SHADER "void main() {");
    [discriminate | reflexivity | reflexivity].
Qed.

(** Claim C2.  [CreateShader] does nothing about a failed compilation: when
    the compile status
    of the vertex or of the fragment shader is [GL_FALSE], the call of
    [CompileShader] for it returns 0, and [CreateShader] goes on to attach
    that 0, to link and to validate the program, to delete the two
    handles, and returns the program name.  (Both calls of
    [CompileShader] are assumed to return, see [compile_defined].) *)
Theorem CreateShader_attaches_failed_handle
    (d : Driver) (vsrc fsrc : string) (w : World) :
  compile_defined d GL_VERTEX_SHADER vsrc →
  compile_defined d GL_FRAGMENT_SHADER fsrc →
  failed d GL_VERTEX_SHADER vsrc = true ∨
  failed d GL_FRAGMENT_SHADER fsrc = true →
  let program := to_uint (glCreateProgram_name d) in
  ∃ (vs fs : Z) (wv wf : World),
    CompileShader d GL_VERTEX_SHADER vsrc (step d Call.glCreateProgram w)
      = Done vs wv ∧
    CompileShader d GL_FRAGMENT_SHADER fsrc wv = Done fs wf ∧
    (failed d GL_VERTEX_SHADER vsrc = true → vs = 0) ∧
    (failed d GL_FRAGMENT_SHADER fsrc = true → fs = 0) ∧
    (to_uint vs = 0 ∨ to_uint fs = 0) ∧
    CreateShader d vsrc fsrc w
    = Done program
        (steps d
           [ Call.glAttachShader program (to_uint vs);
             Call.glAttachShader program (to_uint fs);
             Call.glLinkProgram program;
             Call.glValidateProgram program;
             Call.glDeleteShader (to_uint vs);
             Call.glDeleteShader (to_uint fs) ]
           wf).
Proof.
  intros Hv Hf Hfailed program.
  eexists _, _, _, _.
  split; [apply (CompileShader_run d _ _ _ Hv)|].
  split; [apply (CompileShader_run d _ _ _ Hf)|].
  split; [by intros ->|]. split; [by intros ->|]. split.
  - destruct Hfailed as [-> | ->]; [by left | by right].
  - unfold CreateShader, glCreateProgram, glAttachShader, glLinkProgram,
      glValidateProgram, glDeleteShader, call.
    unfold mbind, M_bind, mret, M_ret.
    by rewrite (CompileShader_run d _ _ _ Hv), (CompileShader_run d _ _ _ Hf).
Qed.

Lemma CreateShader_attaches_failed_handle_witness :
  compile_defined rejecting_driver GL_VERTEX_SHADER vertexShader ∧
  compile_defined rejecting_driver GL_FRAGMENT_SHADER fragmentShader ∧
  failed rejecting_driver GL_VERTEX_SHADER vertexShader = true ∧
  ∃ w : World,
    CreateShader rejecting_driver vertexShader fragmentShader initial_world
    = Done 1 w ∧
    List.filter is_shader_build (drop 12 (calls w))
    = [ Call.glAttachShader 1 0; Call.glAttachShader 1 3;
        Call.glLinkProgram 1 ].
Proof.
  assert (Hv : compile_defined rejecting_driver GL_VERTEX_SHADER vertexShader)
    by (split; [discriminate | intros _; discriminate]).
  assert (Hf : compile_defined rejecting_driver GL_FRAGMENT_SHADER
                 fragmentShader)
    by (split; [discriminate | intros H; discriminate H]).
  split; [exact Hv|]. split; [exact Hf|]. split; [reflexivity|].
  destruct (CreateShader_attaches_failed_handle rejecting_driver
              vertexShader fragmentShader initial_world Hv Hf
              (or_introl eq_refl))
    as (vs & fs & wv & wf & Hvs & Hfs & Hv0 & _ & _ & Hrun).
  eexists. split; [exact Hrun|].
  vm_compute in Hvs. injection Hvs as <- <-.
  vm_compute in Hfs. injection Hfs as <- <-.
  vm_compute. reflexivity.
Defined.

(** Claim C3, as stated, fails: the draw of a frame is not an indexed
    draw.  No choice of index type and index offset makes the body of the
    loop the sequence clear colour, clear, [glDrawElements] of 3 vertices
    as triangles, swap, poll. *)
Lemma frame_draw_is_not_indexed :
  ¬ ∃ type indices : Z,
      render_frame working_driver 0x1000 initial_world
      = Done ()
          (steps working_driver
             [ Call.glClearColor 0.2%Q 0.2%Q 0.3%Q 1.0%Q;
               Call.glClear GL_COLOR_BUFFER_BIT;
               Call.glDrawElements GL_TRIANGLES 3 type indices;
               Call.glfwSwapBuffers 0x1000;
               Call.glfwPollEvents ]
             initial_world).
Proof.
  intros (type & indices & H).
  apply (f_equal world_of) in H. apply (f_equal calls) in H.
  discriminate H.
Qed.

(** Claim C3, amended.  Every iteration of the loop entered with the
    close flag down issues, after the look at the flag, exactly: the clear
    colour (0.2, 0.2, 0.3, 1.0), the clear of the colour buffer, one array
    draw ([glDrawArrays], not indexed) of 3 vertices from vertex 0 as
    triangles, the buffer swap and the event poll; then the loop goes
    on from there. *)
Theorem frame_sequence (d : Driver) (fuel : nat) (window : Z) (w : World) :
  close_flag d (close_checks w) = 0 →
  let body :=
    [ Call.glClearColor 0.2%Q 0.2%Q 0.3%Q 1.0%Q;
      Call.glClear GL_COLOR_BUFFER_BIT;
      Call.glDrawArrays GL_TRIANGLES 0 3;
      Call.glfwSwapBuffers window;
      Call.glfwPollEvents ] in
  let w1 := step d (Call.glfwWindowShouldClose window) w in
  render_frame d window w1 = Done () (steps d body w1) ∧
  frame_loop d (S fuel) window w
  = frame_loop d fuel window (steps d body w1) ∧
  calls (steps d body w1)
    = calls w ++ Call.glfwWindowShouldClose window :: body ∧
  count is_draw body = 1%nat ∧
  count is_indexed_draw body = 0%nat.
Proof.
  intros Hopen body w1. split; [done|]. split.
  - apply (frame_loop_step d fuel window w Hopen).
  - split; [|done]. unfold w1. rewrite calls_steps. simpl.
    by rewrite <- app_assoc.
Qed.

Lemma frame_sequence_witness :
  close_flag working_driver (close_checks initial_world) = 0 ∧
  frame_loop working_driver 1 0x1000 initial_world
  = frame_loop working_driver 0 0x1000
      (steps working_driver
         [ Call.glClearColor 0.2%Q 0.2%Q 0.3%Q 1.0%Q;
           Call.glClear GL_COLOR_BUFFER_BIT;
           Call.glDrawArrays GL_TRIANGLES 0 3;
           Call.glfwSwapBuffers 0x1000;
           Call.glfwPollEvents ]
         (step working_driver (Call.glfwWindowShouldClose 0x1000)
            initial_world)).
Proof.
  assert (H : close_flag working_driver (close_checks initial_world) = 0)
    by reflexivity.
  split; [exact H|].
  exact (proj1 (proj2
           (frame_sequence working_driver 0 0x1000 initial_world H))).
Defined.

(** Claim C4.  When both compilations succeed (both shader objects exist
    and neither status is [GL_FALSE]), [CreateShader] issues exactly:
    program creation, the two compilations, the attachment of both
    shaders to the program, link, validation, deletion of both shaders;
    it prints nothing and returns the name that program creation gave.
    When moreover the program object exists and the two shaders have
    different names, the context then holds one program with the two
    shaders attached, in this order, linked and validated as the driver
    decides, and the two compiled shaders are flagged for deletion. *)
Theorem CreateShader_links_compiled_shaders
    (d : Driver) (vsrc fsrc : string) (w : World) :
  compile_status d GL_VERTEX_SHADER (c_str vsrc) ≠ GL_FALSE →
  compile_status d GL_FRAGMENT_SHADER (c_str fsrc) ≠ GL_FALSE →
  to_uint (glCreateShader_name d GL_VERTEX_SHADER) ≠ 0 →
  to_uint (glCreateShader_name d GL_FRAGMENT_SHADER) ≠ 0 →
  let program := to_uint (glCreateProgram_name d) in
  let vs := to_uint (glCreateShader_name d GL_VERTEX_SHADER) in
  let fs := to_uint (glCreateShader_name d GL_FRAGMENT_SHADER) in
  let built :=
    steps d
      [ Call.glCreateProgram;
        Call.glCreateShader GL_VERTEX_SHADER;
        Call.glShaderSource vs 1 (c_str vsrc);
        Call.glCompileShader vs;
        Call.glGetShaderiv vs GL_COMPILE_STATUS;
        Call.glCreateShader GL_FRAGMENT_SHADER;
        Call.glShaderSource fs 1 (c_str fsrc);
        Call.glCompileShader fs;
        Call.glGetShaderiv fs GL_COMPILE_STATUS;
        Call.glAttachShader program vs;
        Call.glAttachShader program fs;
        Call.glLinkProgram program;
        Call.glValidateProgram program;
        Call.glDeleteShader vs;
        Call.glDeleteShader fs ]
      w in
  CreateShader d vsrc fsrc w = Done program built ∧
  console built = console w ∧
  (program ≠ 0 → vs ≠ fs →
   programs (gl built) !! program
   = Some {| pg_attached := [vs; fs]; pg_linked := link_ok d;
             pg_valid := validate_ok d; pg_flagged := false |} ∧
   shaders (gl built) !! vs
   = Some (flag_shader (compiled d GL_VERTEX_SHADER vsrc)) ∧
   shaders (gl built) !! fs
   = Some (flag_shader (compiled d GL_FRAGMENT_SHADER fsrc))).
Proof.
  intros Hvok Hfok Hvs Hfs program vs fs built.
  assert (Hvf : failed d GL_VERTEX_SHADER vsrc = false)
    by (by apply Z.eqb_neq).
  assert (Hff : failed d GL_FRAGMENT_SHADER fsrc = false)
    by (by apply Z.eqb_neq).
  assert (Hcalls : built = steps d (create_calls d vsrc fsrc) w).
  { unfold built, create_calls, compile_calls, handle. by rewrite Hvf, Hff. }
  split; [|split].
  - rewrite CreateShader_run;
      [| split; [done | by rewrite Hvf] | split; [done | by rewrite Hff]].
    unfold diagnostic. rewrite Hvf, Hff, Hcalls.
    change (EmptyString +:+ EmptyString) with EmptyString.
    by rewrite print_empty.
  - apply console_steps.
  - intros Hprogram Hne. rewrite Hcalls, gl_steps_eq.
    by apply CreateShader_objects.
Qed.

Lemma CreateShader_links_compiled_shaders_witness :
  compile_status working_driver GL_VERTEX_SHADER (c_str vertexShader)
    ≠ GL_FALSE ∧
  compile_status working_driver GL_FRAGMENT_SHADER (c_str fragmentShader)
    ≠ GL_FALSE ∧
  to_uint (glCreateShader_name working_driver GL_VERTEX_SHADER) ≠ 0 ∧
  to_uint (glCreateShader_name working_driver GL_FRAGMENT_SHADER) ≠ 0 ∧
  returned
    (CreateShader working_driver vertexShader fragmentShader initial_world)
  = Some 1.
Proof.
  repeat (split; [discriminate|]).
  rewrite (proj1 (CreateShader_links_compiled_shaders working_driver
                    vertexShader fragmentShader initial_world
                    ltac:(discriminate) ltac:(discriminate)
                    ltac:(discriminate) ltac:(discriminate))).
  reflexivity.
Defined.

(** Claim C5.  In a run of [main] that gets as far as the loop, let the
    close flag be down at its first [n] readings and up at the next one.
    Then the loop is Running through [n] iterations (with a budget of at
    most [n] iterations [main] is still in the loop, having issued exactly
    that many iterations); with any larger budget the loop is Closed and
    [main] returns 0 after [n] iterations, one more reading of the flag,
    [glDeleteProgram] and [glfwTerminate].  Every iteration reads the flag
    once and draws once; nothing is drawn before the loop, and nothing
    after the reading that found the flag up. *)
Theorem close_request_ends_the_loop (d : Driver) (n : nat) :
  starts d →
  (∀ k, (k < n)%nat → close_flag d k = 0) →
  close_flag d n ≠ 0 →
  let window := glfwCreateWindow_result d in
  let check := Call.glfwWindowShouldClose window in
  (∀ fuel, (fuel <= n)%nat →
     loop_state (frame_loop d fuel window (setup_world d)) = Some Running ∧
     main d fuel initial_world
     = Looping (steps d (iterations fuel window) (setup_world d))) ∧
  (∀ fuel, (n < fuel)%nat →
     loop_state (frame_loop d fuel window (setup_world d)) = Some Closed ∧
     main d fuel initial_world
     = Done 0
         (steps d
            (iterations n window ++
             [check; Call.glDeleteProgram (program_name d); Call.glfwTerminate])
            (setup_world d))) ∧
  count is_close_check (iteration window) = 1%nat ∧
  count is_draw (iteration window) = 1%nat ∧
  count is_draw (calls (setup_world d)) = 0%nat ∧
  count is_close_check (calls (setup_world d)) = 0%nat ∧
  count is_draw
    [check; Call.glDeleteProgram (program_name d); Call.glfwTerminate] = 0%nat.
Proof.
  intros Hstarts Hopen Hclose window check.
  split; [|split].
  - intros fuel Hfuel. split.
    + rewrite frame_loop_running; [done|].
      intros k Hk. rewrite close_checks_setup_world. apply Hopen. lia.
    + apply main_running; [done|]. intros k Hk. apply Hopen. lia.
  - intros fuel Hfuel. split.
    + rewrite (frame_loop_closing d n fuel);
        [done| |by rewrite close_checks_setup_world|done].
      intros k Hk. rewrite close_checks_setup_world. by apply Hopen.
    + by apply main_closing.
  - rewrite calls_setup_world. unfold count.
    destruct (setup_calls_quiet d) as (-> & -> & _). done.
Qed.

Lemma working_driver_starts : starts working_driver.
Proof.
  unfold starts, compile_defined. simpl.
  repeat split; try discriminate. by exists "3.3.0"%string.
Defined.

Lemma close_request_ends_the_loop_witness :
  starts working_driver ∧
  (∀ k, (k < 2)%nat → close_flag working_driver k = 0) ∧
  close_flag working_driver 2 ≠ 0 ∧
  main working_driver 5 initial_world
  = Done 0
      (steps working_driver
         (iterations 2 0x1000 ++
          [Call.glfwWindowShouldClose 0x1000; Call.glDeleteProgram 1;
           Call.glfwTerminate])
         (setup_world working_driver)).
Proof.
  assert (Hopen : ∀ k, (k < 2)%nat → close_flag working_driver k = 0).
  { intros k Hk. destruct k as [|[|k]]; [done|done|lia]. }
  assert (Hclose : close_flag working_driver 2 ≠ 0) by discriminate.
  split; [exact working_driver_starts|]. split; [exact Hopen|].
  split; [exact Hclose|].
  refine (proj2 (proj1 (proj2
            (close_request_ends_the_loop working_driver 2
               working_driver_starts Hopen Hclose))
            5%nat _)).
  lia.
Defined.



(** Claim C7.  First part: when the library initialises and the window
    pointer comes back null, [main] issues [glfwInit], [glewInit],
    [glfwCreateWindow], [glfwTerminate] and returns -1; no vertex data has
    been uploaded, no shader built, nothing drawn.  Second part, for any
    driver and any iteration budget: whether linking and validation
    succeed changes neither how [main] ends, nor the value it returns,
    nor what it prints, nor the calls it makes. *)
Theorem window_failure_aborts_and_linker_is_ignored
    (d1 d2 : Driver) (link validate : bool) (fuel : nat) :
  glfwInit_result d1 ≠ 0 →
  glfwCreateWindow_result d1 = NULL →
  let aborted :=
    [ Call.glfwInit; Call.glewInit;
      Call.glfwCreateWindow 640 480 "Hello World" NULL NULL;
      Call.glfwTerminate ] in
  let run := main d2 fuel initial_world in
  let run' := main (with_linker link validate d2) fuel initial_world in
  (main d1 fuel initial_world = Done (-1) (steps d1 aborted initial_world) ∧
   -1 < 0 ∧
   count is_upload aborted = 0%nat ∧
   count is_shader_build aborted = 0%nat ∧
   count is_draw aborted = 0%nat) ∧
  (returned run' = returned run ∧
   loop_state run' = loop_state run ∧
   console (world_of run') = console (world_of run) ∧
   calls (world_of run') = calls (world_of run)).
Proof.
  intros Hinit Hwindow aborted run run'. split.
  - split; [|done].
    unfold main, glfwInit, glewInit, glfwCreateWindow, glfwTerminate, call.
    unfold mbind, M_bind, mret, M_ret.
    apply Z.eqb_neq in Hinit. rewrite Hinit, Hwindow. reflexivity.
  - pose proof (main_agree d2 link validate fuel) as Hrel.
    fold run run' in Hrel.
    destruct run' as [rc' w'|w'|w'], run as [rc w|w|w]; simpl in Hrel;
      try done; simpl.
    + destruct Hrel as (-> & -> & ->). done.
    + destruct Hrel as (-> & ->). done.
    + destruct Hrel as (-> & ->). done.
Qed.

Lemma window_failure_aborts_and_linker_is_ignored_witness :
  glfwInit_result no_window_driver ≠ 0 ∧
  glfwCreateWindow_result no_window_driver = NULL ∧
  returned (main no_window_driver 5 initial_world) = Some (-1) ∧
  console (world_of (main (with_linker false false working_driver) 5
                       initial_world))
  = console (world_of (main working_driver 5 initial_world)).
Proof.
  assert (Hinit : glfwInit_result no_window_driver ≠ 0) by discriminate.
  assert (Hwindow : glfwCreateWindow_result no_window_driver = NULL)
    by reflexivity.
  split; [exact Hinit|]. split; [exact Hwindow|].
  pose proof (window_failure_aborts_and_linker_is_ignored
                no_window_driver working_driver false false 5 Hinit Hwindow)
    as [[Hrun _] (_ & _ & Hconsole & _)].
  split; [by rewrite Hrun | exact Hconsole].
Defined.

(** Claim C8, as stated, fails: on a driver that cannot create the
    program object, [CreateShader] returns 0 for the embedded pair of
    sources, although both compile. *)
Lemma CreateShader_returns_zero_handle :
  failed no_program_driver GL_VERTEX_SHADER vertexShader = false ∧
  failed no_program_driver GL_FRAGMENT_SHADER fragmentShader = false ∧
  returned
    (CreateShader no_program_driver vertexShader fragmentShader initial_world)
  = Some 0.
Proof. vm_compute. done. Qed.

(** Claim C8, amended.  For the embedded pair of sources, [CreateShader]
    returns the name that [glCreateProgram] gave, whether or not the
    sources compile: a non-zero handle whenever program creation
    succeeded, and 0 when [glCreateProgram] returned 0.  (Both calls of
    [CompileShader] are assumed to return, see [compile_defined].) *)
Theorem CreateShader_returns_created_program (d : Driver) (w : World) :
  compile_defined d GL_VERTEX_SHADER vertexShader →
  compile_defined d GL_FRAGMENT_SHADER fragmentShader →
  ∃ program : Z,
    returned (CreateShader d vertexShader fragmentShader w) = Some program ∧
    program = to_uint (glCreateProgram_name d) ∧
    (to_uint (glCreateProgram_name d) ≠ 0 → program ≠ 0) ∧
    (to_uint (glCreateProgram_name d) = 0 → program = 0).
Proof.
  intros Hv Hf. exists (to_uint (glCreateProgram_name d)).
  by rewrite (CreateShader_run d _ _ _ Hv Hf).
Qed.

Lemma CreateShader_returns_created_program_witness :
  compile_defined rejecting_driver GL_VERTEX_SHADER vertexShader ∧
  compile_defined rejecting_driver GL_FRAGMENT_SHADER fragmentShader ∧
  ∃ program : Z,
    returned
      (CreateShader rejecting_driver vertexShader fragmentShader initial_world)
    = Some program ∧ program ≠ 0.
Proof.
  assert (Hv : compile_defined rejecting_driver GL_VERTEX_SHADER vertexShader)
    by (split; [discriminate | intros _; discriminate]).
  assert (Hf : compile_defined rejecting_driver GL_FRAGMENT_SHADER
                 fragmentShader)
    by (split; [discriminate | intros H; discriminate H]).
  split; [exact Hv|]. split; [exact Hf|].
  destruct (CreateShader_returns_created_program rejecting_driver
              initial_world Hv Hf) as (program & Hrun & _ & Hne & _).
  exists program. split; [exact Hrun|]. apply Hne. discriminate.
Defined.

(** Claim C9.  The two ways in which startup fails.  When [glfwInit]
    reports failure, [main] returns -1 having issued [glfwInit] and
    nothing else, so without [glfwTerminate].  When the library
    initialises but the window pointer is null, [main] issues
    [glfwTerminate] once and then returns -1.  The two runs end with the
    same return value. *)
Theorem startup_failures_return_the_same_code (d1 d2 : Driver) (fuel : nat) :
  glfwInit_result d1 = 0 →
  glfwInit_result d2 ≠ 0 →
  glfwCreateWindow_result d2 = NULL →
  let no_library := [ Call.glfwInit ] in
  let no_window :=
    [ Call.glfwInit; Call.glewInit;
      Call.glfwCreateWindow 640 480 "Hello World" NULL NULL;
      Call.glfwTerminate ] in
  main d1 fuel initial_world = Done (-1) (steps d1 no_library initial_world) ∧
  main d2 fuel initial_world = Done (-1) (steps d2 no_window initial_world) ∧
  count is_teardown no_library = 0%nat ∧
  count is_teardown no_window = 1%nat ∧
  returned (main d1 fuel initial_world) = returned (main d2 fuel initial_world).
Proof.
  intros Hinit1 Hinit2 Hwindow no_library no_window.
  assert (H1 : main d1 fuel initial_world
               = Done (-1) (steps d1 no_library initial_world)).
  { unfold main, glfwInit, call. unfold mbind, M_bind, mret, M_ret.
    rewrite Hinit1. reflexivity. }
  assert (H2 : main d2 fuel initial_world
               = Done (-1) (steps d2 no_window initial_world)).
  { unfold main, glfwInit, glewInit, glfwCreateWindow, glfwTerminate, call.
    unfold mbind, M_bind, mret, M_ret.
    apply Z.eqb_neq in Hinit2. rewrite Hinit2, Hwindow. reflexivity. }
  rewrite H1, H2. done.
Qed.

Lemma startup_failures_return_the_same_code_witness :
  glfwInit_result no_glfw_driver = 0 ∧
  glfwInit_result no_window_driver ≠ 0 ∧
  glfwCreateWindow_result no_window_driver = NULL ∧
  calls (world_of (main no_glfw_driver 5 initial_world)) = [ Call.glfwInit ] ∧
  returned (main no_glfw_driver 5 initial_world) = Some (-1) ∧
  returned (main no_window_driver 5 initial_world) = Some (-1).
Proof.
  assert (H1 : glfwInit_result no_glfw_driver = 0) by reflexivity.
  assert (H2 : glfwInit_result no_window_driver ≠ 0) by discriminate.
  assert (H3 : glfwCreateWindow_result no_window_driver = NULL) by reflexivity.
  split; [exact H1|]. split; [exact H2|]. split; [exact H3|].
  destruct (startup_failures_return_the_same_code
              no_glfw_driver no_window_driver 5 H1 H2 H3)
    as (Hrun1 & Hrun2 & _).
  rewrite Hrun1, Hrun2. done.
Defined.

(** Claim C10.  Whatever the driver and the state the loop is entered
    in: one pass through the body issues the same five calls; it leaves
    the clear colour at (0.2, 0.2, 0.3, 1.0); an iteration changes nothing
    else in the context, in particular not the bound buffer, the buffer
    contents, the attribute layout or the program in use; the same holds
    after any number of iterations; and what the loop adds to the calls is
    some number of copies of one and the same iteration, followed at most
    by the reading of the flag that ends it. *)
Theorem frames_are_identical
    (d : Driver) (fuel : nat) (window : Z) (w : World) :
  render_frame d window w
  = Done ()
      (steps d
         [ Call.glClearColor 0.2%Q 0.2%Q 0.3%Q 1.0%Q;
           Call.glClear GL_COLOR_BUFFER_BIT;
           Call.glDrawArrays GL_TRIANGLES 0 3;
           Call.glfwSwapBuffers window;
           Call.glfwPollEvents ]
         w) ∧
  clear_color (gl (steps d (frame_calls window) w))
    = (0.2%Q, 0.2%Q, 0.3%Q, 1.0%Q) ∧
  setup_state (gl (steps d (iteration window) w)) = setup_state (gl w) ∧
  setup_state (gl (world_of (frame_loop d fuel window w)))
    = setup_state (gl w) ∧
  ∃ n : nat,
    (n <= fuel)%nat ∧
    (calls (world_of (frame_loop d fuel window w))
       = calls w ++ concat (replicate n (iteration window)) ∨
     calls (world_of (frame_loop d fuel window w))
       = calls w ++ concat (replicate n (iteration window))
           ++ [Call.glfwWindowShouldClose window]).
Proof.
  split; [done|]. split; [done|]. split; [done|].
  split; [apply frame_loop_setup_state|].
  destruct (frame_loop_shape d fuel window w) as [n [[-> Hn]|[Hlt Hn]]];
    rewrite Hn; simpl world_of.
  - exists fuel. split; [done|]. left. apply calls_steps.
  - exists n. split; [lia|]. right. apply calls_steps.
Qed.

(* ===================================================================== *)
(** ** Further properties: handles, strings and names *)
(* ===================================================================== *)

Lemma to_int_range x : - 2 ^ 31 <= to_int x < 2 ^ 31.
Proof.
  unfold to_int.
  pose proof (Z.mod_pos_bound (x + 2 ^ 31) (2 ^ 32)). lia.
Qed.

Lemma to_int_negative x :
  0 <= x < 2 ^ 32 → (to_int x < 0 ↔ 2 ^ 31 <= x).
Proof.
  intros Hx. unfold to_int.
  destruct (Z_lt_le_dec x (2 ^ 31)) as [Hlt|Hge].
  - rewrite Z.mod_small by lia. lia.
  - replace (x + 2 ^ 31) with (x - 2 ^ 31 + 1 * 2 ^ 32) by lia.
    rewrite Z.mod_add by lia. rewrite Z.mod_small by lia. lia.
Qed.

Lemma to_uint_range x : 0 <= to_uint x < 2 ^ 32.
Proof. unfold to_uint. apply Z.mod_pos_bound. lia. Qed.

Lemma c_str_idem (s : string) : c_str (c_str s) = c_str s.
Proof.
  induction s as [|c s IH]; [done|]. simpl.
  destruct (Ascii.eqb c NUL) eqn:Hc; [done|]. simpl. by rewrite Hc, IH.
Qed.

Lemma c_str_append_NUL (s t : string) :
  c_str (s +:+ String NUL t) = c_str s.
Proof.
  induction s as [|c s IH]; [done|].
  change (c_str (String c (s +:+ String NUL t)) = c_str (String c s)).
  simpl. by rewrite IH.
Qed.

Section Names.
Variable d : Driver.

(** No call creates a shader object of name 0. *)
Lemma gl_exec_no_shader_0 c g :
  shaders g !! 0 = None → shaders (gl_exec d c g) !! 0 = None.
Proof.
  intros H0. destruct c; try exact H0; unfold gl_exec.
  - by destruct (target =? GL_ARRAY_BUFFER),
      ((buffer =? 0) || bool_decide (is_Some (buffers g !! buffer))).
  - by destruct ((target =? GL_ARRAY_BUFFER) && negb (array_buffer g =? 0)
                 && (0 <=? size)).
  - by destruct (to_uint (glCreateProgram_name d) =? 0).
  - destruct (to_uint (glCreateShader_name d type) =? 0) eqn:Hn; [done|].
    simpl. apply Z.eqb_neq in Hn. by rewrite lookup_insert_ne.
  - simpl. destruct (decide (shader = 0)) as [->|Hne].
    + by rewrite lookup_alter_eq, H0.
    + by rewrite lookup_alter_ne.
  - simpl. destruct (decide (shader = 0)) as [->|Hne].
    + by rewrite lookup_alter_eq, H0.
    + by rewrite lookup_alter_ne.
  - destruct (is_attached g shader); simpl.
    + destruct (decide (shader = 0)) as [->|Hne].
      * by rewrite lookup_alter_eq, H0.
      * by rewrite lookup_alter_ne.
    + destruct (decide (shader = 0)) as [->|Hne].
      * by rewrite lookup_delete_eq.
      * by rewrite lookup_delete_ne.
  - by destruct (bool_decide (is_Some (shaders g !! shader))).
  - destruct (program =? 0); [done|].
    destruct (programs g !! program) as [p|]; [|done].
    by destruct (pg_linked p).
  - destruct ((program =? current_program g) && negb (program =? 0));
      [done|].
    unfold delete_program. simpl.
    apply map_lookup_filter_None. left. exact H0.
Qed.

Lemma is_attached_same_programs g g' shader :
  programs g' = programs g → is_attached g' shader = is_attached g shader.
Proof. intros H. unfold is_attached. by rewrite H. Qed.

(** [CompileShader] on a source that the driver accepts. *)
Lemma CompileShader_accepts type source w :
  shader_name d type ≠ 0 →
  failed d type source = false →
  CompileShader d type source w
  = Done (to_int (shader_name d type))
      (steps d
         [ Call.glCreateShader type;
           Call.glShaderSource (shader_name d type) 1 (c_str source);
           Call.glCompileShader (shader_name d type);
           Call.glGetShaderiv (shader_name d type) GL_COMPILE_STATUS ]
         w).
Proof.
  intros Hid Hf.
  rewrite CompileShader_run by (split; [done | by rewrite Hf]).
  unfold diagnostic, compile_calls, handle. rewrite Hf, print_empty.
  by rewrite app_nil_r.
Qed.

(** [CompileShader] when the driver hands out no shader object: the
    status query writes nothing, and the status is read all the same. *)
Lemma CompileShader_no_object type source w :
  shader_name d type = 0 →
  shaders (gl w) !! 0 = None →
  CompileShader d type source w
  = Undefined
      (steps d
         [ Call.glCreateShader type;
           Call.glShaderSource 0 1 (c_str source);
           Call.glCompileShader 0;
           Call.glGetShaderiv 0 GL_COMPILE_STATUS ]
         w).
Proof.
  unfold shader_name. intros Hid H0.
  unfold CompileShader, glCreateShader, glShaderSource, glCompileShader,
    glGetShaderiv, call, ask, load.
  unfold mbind, M_bind, mret, M_ret. rewrite Hid.
  set (w4 := step d (Call.glGetShaderiv 0 GL_COMPILE_STATUS) _).
  assert (Hnone : shaders (gl w4) !! 0 = None).
  { unfold w4. change (gl (step d ?c ?u)) with (gl_exec d c (gl u)).
    by do 4 apply gl_exec_no_shader_0. }
  rewrite Hnone. reflexivity.
Qed.
End Names.

(** X1.  [CompileShader] on an accepted source.  When the driver hands out
    a shader object and reports any compile status other than [GL_FALSE],
    [CompileShader] issues exactly four calls (create, source, compile,
    status query), prints nothing, deletes nothing, and returns the name
    of the object converted to [int]; the object stays in the context
    with the source up to its first NUL and the status and log of the
    driver, not flagged for deletion. *)
Theorem CompileShader_accepted
    (d : Driver) (type : Z) (source : string) (w : World) :
  to_uint (glCreateShader_name d type) ≠ 0 →
  compile_status d type (c_str source) ≠ GL_FALSE →
  let id := to_uint (glCreateShader_name d type) in
  let w' :=
    steps d
      [ Call.glCreateShader type;
        Call.glShaderSource id 1 (c_str source);
        Call.glCompileShader id;
        Call.glGetShaderiv id GL_COMPILE_STATUS ]
      w in
  CompileShader d type source w = Done (to_int id) w' ∧
  console w' = console w ∧
  shaders (gl w') !! id
  = Some {| sh_type := type; sh_source := c_str source;
            sh_status := compile_status d type (c_str source);
            sh_log := compile_log d type (c_str source);
            sh_flagged := false |}.
Proof.
  intros Hid Hok id w'.
  assert (Hf : failed d type source = false) by (by apply Z.eqb_neq).
  split; [|split].
  - by apply CompileShader_accepts.
  - apply console_steps.
  - unfold w'. rewrite gl_steps_eq.
    apply (compiled_lookup d type (c_str source) 1 (gl w) Hid).
Qed.

Lemma CompileShader_accepted_witness :
  to_uint (glCreateShader_name working_driver GL_VERTEX_SHADER) ≠ 0 ∧
  compile_status working_driver GL_VERTEX_SHADER (c_str vertexShader)
    ≠ GL_FALSE ∧
  returned (CompileShader working_driver GL_VERTEX_SHADER vertexShader
              initial_world) = Some 2.
Proof.
  split; [discriminate|]. split; [discriminate|].
  rewrite (proj1 (CompileShader_accepted working_driver GL_VERTEX_SHADER
                    vertexShader initial_world
                    ltac:(discriminate) ltac:(discriminate))).
  reflexivity.
Defined.

(** X2.  The handle survives the [int].  [CompileShader] returns the
    [unsigned int] name of the shader as an [int]: the value returned lies
    in the range of [int], it is negative exactly when the name is
    2^31 or more, and converting it back to [unsigned int], as
    [CreateShader] does when it passes the handle on, gives the name
    again. *)
Theorem CompileShader_handle_round_trip
    (d : Driver) (type : Z) (source : string) (w : World) :
  to_uint (glCreateShader_name d type) ≠ 0 →
  compile_status d type (c_str source) ≠ GL_FALSE →
  let id := to_uint (glCreateShader_name d type) in
  ∃ (r : Z) (w' : World),
    CompileShader d type source w = Done r w' ∧
    - 2 ^ 31 <= r < 2 ^ 31 ∧
    (r < 0 ↔ 2 ^ 31 <= id) ∧
    to_uint r = id.
Proof.
  intros Hid Hok id.
  assert (Hf : failed d type source = false) by (by apply Z.eqb_neq).
  eexists _, _. split; [by apply CompileShader_accepts|].
  fold (shader_name d type). change (shader_name d type) with id.
  split; [apply to_int_range|]. split.
  - apply to_int_negative, to_uint_range.
  - unfold id. by rewrite to_uint_to_int, to_uint_idem.
Qed.

Lemma CompileShader_handle_round_trip_witness :
  to_uint (glCreateShader_name high_names_driver GL_VERTEX_SHADER) ≠ 0 ∧
  compile_status high_names_driver GL_VERTEX_SHADER (c_str vertexShader)
    ≠ GL_FALSE ∧
  ∃ (r : Z) (w' : World),
    CompileShader high_names_driver GL_VERTEX_SHADER vertexShader
      initial_world = Done r w' ∧
    r < 0 ∧ to_uint r = 0x80000002.
Proof.
  split; [discriminate|]. split; [discriminate|].
  destruct (CompileShader_handle_round_trip high_names_driver
              GL_VERTEX_SHADER vertexShader initial_world
              ltac:(discriminate) ltac:(discriminate))
    as (r & w' & Hrun & _ & Hneg & Hback).
  exists r, w'. split; [exact Hrun|]. split; [|exact Hback].
  apply Hneg. vm_compute. discriminate.
Defined.

(** X3.  [CompileShader] on a rejected source with a log.  When the
    driver hands out a shader object, reports [GL_FALSE] and has a
    non-empty log, [CompileShader] issues seven calls (create, source,
    compile, status query, length query, log query with a buffer of the
    log length plus one, delete), prints the headline for the shader
    type and the log up to its first NUL, each followed by a line end,
    and returns 0.
    If no program has the name attached, the shader object is gone from
    the context afterwards, and the program objects are untouched. *)
Theorem CompileShader_rejected_with_log
    (d : Driver) (type : Z) (source : string) (w : World) :
  to_uint (glCreateShader_name d type) ≠ 0 →
  compile_status d type (c_str source) = GL_FALSE →
  compile_log d type (c_str source) ≠ EmptyString →
  is_attached (gl w) (to_uint (glCreateShader_name d type)) = false →
  let id := to_uint (glCreateShader_name d type) in
  let log := compile_log d type (c_str source) in
  let w' :=
    steps d
      [ Call.glCreateShader type;
        Call.glShaderSource id 1 (c_str source);
        Call.glCompileShader id;
        Call.glGetShaderiv id GL_COMPILE_STATUS;
        Call.glGetShaderiv id GL_INFO_LOG_LENGTH;
        Call.glGetShaderInfoLog id (Z.of_nat (String.length log) + 1);
        Call.glDeleteShader id ]
      w in
  CompileShader d type source w
  = Done 0
      (print
         ("(EE) Failed to compile " +:+
          (if type =? GL_VERTEX_SHADER then "vertex" else "fragment") +:+
          "shader:" +:+ newline +:+ c_str log +:+ newline)
         w') ∧
  shaders (gl w') !! id = None ∧
  programs (gl w') = programs (gl w).
Proof.
  intros Hid Hst Hlog Hfree id log w'.
  assert (Hf : failed d type source = true) by (by apply Z.eqb_eq).
  split; [|split].
  - by apply CompileShader_rejected.
  - unfold w'. rewrite gl_steps_eq. unfold gl_steps. simpl fold_left.
    fold id. apply Z.eqb_neq in Hid. fold id in Hid. rewrite Hid.
    rewrite (is_attached_same_programs (gl w)) by done.
    fold id in Hfree. rewrite Hfree. simpl. apply lookup_delete_eq.
  - unfold w'. rewrite gl_steps_eq. unfold gl_steps. simpl fold_left.
    fold id. apply Z.eqb_neq in Hid. fold id in Hid. rewrite Hid.
    rewrite (is_attached_same_programs (gl w)) by done.
    fold id in Hfree. by rewrite Hfree.
Qed.

Lemma CompileShader_rejected_with_log_witness :
  to_uint (glCreateShader_name rejecting_driver GL_VERTEX_SHADER) ≠ 0 ∧
  compile_status rejecting_driver GL_VERTEX_SHADER (c_str vertexShader)
    = GL_FALSE ∧
  compile_log rejecting_driver GL_VERTEX_SHADER (c_str vertexShader)
    ≠ EmptyString ∧
  is_attached (gl initial_world) 2 = false ∧
  console
    (world_of
       (CompileShader rejecting_driver GL_VERTEX_SHADER vertexShader
          initial_world))
  = "(EE) Failed to compile vertexshader:" +:+ newline +:+
    "0:1(1): error: syntax error" +:+ newline.
Proof.
  split; [discriminate|]. split; [reflexivity|]. split; [discriminate|].
  split; [reflexivity|].
  rewrite (proj1 (CompileShader_rejected_with_log rejecting_driver
                    GL_VERTEX_SHADER vertexShader initial_world
                    ltac:(discriminate) ltac:(reflexivity)
                    ltac:(discriminate) ltac:(reflexivity))).
  reflexivity.
Defined.

(** X4.  [CompileShader] when no shader object can be created.  If
    [glCreateShader] returns 0 (and, as in every context, no shader object
    has the name 0), the status query leaves [result] unwritten, and
    [CompileShader] branches on that indeterminate value: the run is
    undefined after four calls on the name 0, with nothing printed and
    nothing deleted. *)
Theorem CompileShader_without_shader_object
    (d : Driver) (type : Z) (source : string) (w : World) :
  to_uint (glCreateShader_name d type) = 0 →
  shaders (gl w) !! 0 = None →
  let w' :=
    steps d
      [ Call.glCreateShader type;
        Call.glShaderSource 0 1 (c_str source);
        Call.glCompileShader 0;
        Call.glGetShaderiv 0 GL_COMPILE_STATUS ]
      w in
  CompileShader d type source w = Undefined w' ∧
  console w' = console w ∧
  shaders (gl w') !! 0 = None.
Proof.
  intros Hid H0 w'. split; [by apply CompileShader_no_object|].
  split; [apply console_steps|].
  unfold w'. rewrite gl_steps_eq. unfold gl_steps. cbn [fold_left].
  by do 4 apply gl_exec_no_shader_0.
Qed.

Lemma CompileShader_without_shader_object_witness :
  to_uint (glCreateShader_name no_shader_driver GL_VERTEX_SHADER) = 0 ∧
  shaders (gl initial_world) !! 0 = None ∧
  returned (CompileShader no_shader_driver GL_VERTEX_SHADER vertexShader
              initial_world) = None.
Proof.
  split; [reflexivity|]. split; [reflexivity|].
  rewrite (proj1 (CompileShader_without_shader_object no_shader_driver
                    GL_VERTEX_SHADER vertexShader initial_world
                    ltac:(reflexivity) ltac:(reflexivity))).
  reflexivity.
Defined.

(** X5.  The return value 0 of [CompileShader] means a rejected source.
    Provided [glCreateShader] handed out a shader object (a non-zero
    name): whenever [CompileShader] returns, the value it returns is 0
    exactly when the driver reported the compile status [GL_FALSE]; a
    shader that compiled is never handed back as 0, also when its name
    does not fit an [int].  (Without a shader object the status is never
    written, and nothing is said.) *)
Theorem CompileShader_zero_means_rejected
    (d : Driver) (type : Z) (source : string) (w w' : World) (r : Z) :
  to_uint (glCreateShader_name d type) ≠ 0 →
  CompileShader d type source w = Done r w' →
  (r = 0 ↔ compile_status d type (c_str source) = GL_FALSE).
Proof.
  intros Hid Hrun.
  destruct (Z.eq_dec (compile_status d type (c_str source)) GL_FALSE)
    as [Hst|Hst].
  - split; [done|]. intros _.
    destruct (String.eqb_spec (compile_log d type (c_str source))
                EmptyString) as [Hlog|Hlog].
    + rewrite CompileShader_no_log in Hrun;
        [done|done|by apply Z.eqb_eq|done].
    + rewrite CompileShader_rejected in Hrun;
        [|done|by apply Z.eqb_eq|done]. by injection Hrun as <- _.
  - split; [|done]. intros ->.
    rewrite CompileShader_accepts in Hrun; [|done|by apply Z.eqb_neq].
    injection Hrun as Hr _. apply (f_equal to_uint) in Hr.
    unfold shader_name in Hr.
    rewrite to_uint_to_int, to_uint_idem in Hr. done.
Qed.

Lemma CompileShader_zero_means_rejected_witness :
  to_uint (glCreateShader_name rejecting_driver GL_VERTEX_SHADER) ≠ 0 ∧
  CompileShader rejecting_driver GL_VERTEX_SHADER vertexShader initial_world
  = Done 0
      (world_of
         (CompileShader rejecting_driver GL_VERTEX_SHADER vertexShader
            initial_world)) ∧
  (0 = 0 ↔ compile_status rejecting_driver GL_VERTEX_SHADER
             (c_str vertexShader) = GL_FALSE).
Proof.
  assert (Hid :
    to_uint (glCreateShader_name rejecting_driver GL_VERTEX_SHADER) ≠ 0)
    by discriminate.
  assert (Hrun :
    CompileShader rejecting_driver GL_VERTEX_SHADER vertexShader
      initial_world
    = Done 0
        (world_of
           (CompileShader rejecting_driver GL_VERTEX_SHADER vertexShader
              initial_world))) by (vm_compute; reflexivity).
  split; [exact Hid|]. split; [exact Hrun|].
  exact (CompileShader_zero_means_rejected rejecting_driver GL_VERTEX_SHADER
           vertexShader initial_world _ 0 Hid Hrun).
Defined.

(** X6.  The source reaches the driver as a C string.  [CompileShader]
    passes [source.c_str()] on, so whatever follows the first NUL of the
    source has no effect at all: a source with a NUL and anything behind
    it runs exactly as the source cut before the NUL, and a source cut at
    its first NUL runs exactly as the source itself. *)
Theorem CompileShader_reads_source_as_C_string
    (d : Driver) (type : Z) (source rest : string) (w : World) :
  CompileShader d type (source +:+ String NUL rest) w
  = CompileShader d type (c_str source) w ∧
  CompileShader d type (c_str source) w = CompileShader d type source w.
Proof.
  unfold CompileShader. by rewrite c_str_append_NUL, c_str_idem.
Qed.

(* ===================================================================== *)
(** ** Further properties: a program built from one shader *)
(* ===================================================================== *)

Section Build.
Variable d : Driver.





End Build.



(* ===================================================================== *)
(** ** Further properties: the program in use *)
(* ===================================================================== *)

Section InUse.
Variable d : Driver.

Lemma gl_exec_current_program c g :
  selects_program c = false →
  current_program (gl_exec d c g) = current_program g.
Proof.
  destruct c; try discriminate; intros _; try reflexivity; unfold gl_exec.
  - by destruct (target =? GL_ARRAY_BUFFER),
      ((buffer =? 0) || bool_decide (is_Some (buffers g !! buffer))).
  - by destruct ((target =? GL_ARRAY_BUFFER) && negb (array_buffer g =? 0)
                 && (0 <=? size)).
  - by destruct (to_uint (glCreateProgram_name d) =? 0).
  - by destruct (to_uint (glCreateShader_name d type) =? 0).
  - by destruct (is_attached g shader).
  - by destruct (bool_decide (is_Some (shaders g !! shader))).
  - by destruct ((program =? current_program g) && negb (program =? 0)).
Qed.

Lemma gl_steps_current_program l g :
  forallb (λ c, negb (selects_program c)) l = true →
  current_program (gl_steps d l g) = current_program g.
Proof.
  revert g. induction l as [|c l IH]; intros g Hl; [done|].
  simpl in Hl. apply andb_true_iff in Hl as [Hc Hl].
  simpl. rewrite (IH _ Hl). apply gl_exec_current_program.
  by apply negb_true_iff.
Qed.

(** The link status of a program stays as the last link left it. *)
Lemma gl_exec_linked c g program :
  relinks c = false →
  pg_linked <$> programs (gl_exec d c g) !! program
  = pg_linked <$> programs g !! program.
Proof.
  destruct c; try discriminate; intros _; try reflexivity; unfold gl_exec.
  - by destruct (target =? GL_ARRAY_BUFFER),
      ((buffer =? 0) || bool_decide (is_Some (buffers g !! buffer))).
  - by destruct ((target =? GL_ARRAY_BUFFER) && negb (array_buffer g =? 0)
                 && (0 <=? size)).
  - by destruct (to_uint (glCreateShader_name d type) =? 0).
  - by destruct (is_attached g shader).
  - destruct (bool_decide (is_Some (shaders g !! shader))); [|done]. simpl.
    destruct (decide (program = program0)) as [->|Hne].
    + rewrite lookup_alter_eq. destruct (programs g !! program0) as [p|];
        [|done]. simpl. unfold attach.
      by destruct (bool_decide (shader ∈ pg_attached p)).
    + by rewrite lookup_alter_ne.
  - simpl. destruct (decide (program = program0)) as [->|Hne].
    + rewrite lookup_alter_eq. by destruct (programs g !! program0).
    + by rewrite lookup_alter_ne.
  - destruct (program0 =? 0); [done|].
    destruct (programs g !! program0) as [p|]; [|done].
    by destruct (pg_linked p).
Qed.

Lemma gl_steps_linked l g program :
  forallb (λ c, negb (relinks c)) l = true →
  pg_linked <$> programs (gl_steps d l g) !! program
  = pg_linked <$> programs g !! program.
Proof.
  revert g. induction l as [|c l IH]; intros g Hl; [done|].
  simpl in Hl. apply andb_true_iff in Hl as [Hc Hl].
  simpl. rewrite (IH _ Hl). apply gl_exec_linked.
  by apply negb_true_iff.
Qed.

(** A program object, once created, is there until [glDeleteProgram]. *)
Lemma gl_exec_program_exists c g program :
  (∀ p, c ≠ Call.glDeleteProgram p) →
  is_Some (programs g !! program) →
  is_Some (programs (gl_exec d c g) !! program).
Proof.
  intros Hc Hp. destruct c; try exact Hp; unfold gl_exec.
  - by destruct (target =? GL_ARRAY_BUFFER),
      ((buffer =? 0) || bool_decide (is_Some (buffers g !! buffer))).
  - by destruct ((target =? GL_ARRAY_BUFFER) && negb (array_buffer g =? 0)
                 && (0 <=? size)).
  - destruct (to_uint (glCreateProgram_name d) =? 0); [done|]. simpl.
    rewrite lookup_insert. by case_decide.
  - by destruct (to_uint (glCreateShader_name d type) =? 0).
  - by destruct (is_attached g shader).
  - destruct (bool_decide (is_Some (shaders g !! shader))); [|done]. simpl.
    rewrite lookup_alter. case_decide; [subst|done].
    destruct Hp as [p Hp]. by rewrite Hp.
  - simpl. rewrite lookup_alter. case_decide; [subst|done].
    destruct Hp as [p Hp]. by rewrite Hp.
  - simpl. rewrite lookup_alter. case_decide; [subst|done].
    destruct Hp as [p Hp]. by rewrite Hp.
  - destruct (program0 =? 0); [done|].
    destruct (programs g !! program0) as [p|]; [|done].
    by destruct (pg_linked p).
  - by destruct (Hc program0).
Qed.

Lemma gl_steps_program_exists l g program :
  Forall (λ c, ∀ p, c ≠ Call.glDeleteProgram p) l →
  is_Some (programs g !! program) →
  is_Some (programs (gl_steps d l g) !! program).
Proof.
  revert g. induction l as [|c l IH]; intros g Hl Hp; [done|].
  inversion Hl as [|? ? Hc Hl']; subst. simpl. apply IH; [done|].
  by apply gl_exec_program_exists.
Qed.

Lemma built_program_linked vsrc fsrc g :
  program_name d ≠ 0 →
  pg_linked <$> programs (gl_steps d (create_calls d vsrc fsrc) g)
                !! program_name d
  = Some (link_ok d).
Proof.
  intros Hp. unfold create_calls.
  set (vs := handle d GL_VERTEX_SHADER vsrc).
  set (fs := handle d GL_FRAGMENT_SHADER fsrc).
  set (p := program_name d) in *.
  change [Call.glAttachShader p vs; Call.glAttachShader p fs;
          Call.glLinkProgram p; Call.glValidateProgram p;
          Call.glDeleteShader vs; Call.glDeleteShader fs]
    with ([Call.glAttachShader p vs; Call.glAttachShader p fs] ++
          [Call.glLinkProgram p] ++
          [Call.glValidateProgram p; Call.glDeleteShader vs;
           Call.glDeleteShader fs]).
  rewrite !gl_steps_app.
  set (g1 := gl_steps d [Call.glCreateProgram] g).
  assert (H1 : is_Some (programs g1 !! p)).
  { unfold g1. simpl. fold (program_name d). fold p.
    apply Z.eqb_neq in Hp. rewrite Hp. simpl. by rewrite lookup_insert_eq. }
  set (g2 := gl_steps d [Call.glAttachShader p vs; _] _).
  assert (H2 : is_Some (programs g2 !! p)).
  { unfold g2.
    apply gl_steps_program_exists; [by repeat constructor|].
    apply gl_steps_program_exists.
    { unfold compile_calls. destruct (failed d GL_FRAGMENT_SHADER fsrc);
        by repeat constructor. }
    apply gl_steps_program_exists; [|exact H1].
    unfold compile_calls. destruct (failed d GL_VERTEX_SHADER vsrc);
      by repeat constructor. }
  rewrite gl_steps_linked by done.
  simpl. rewrite lookup_alter_eq. destruct H2 as [pg ->]. done.
Qed.

Lemma create_calls_select_nothing vsrc fsrc :
  forallb (λ c, negb (selects_program c)) (create_calls d vsrc fsrc) = true.
Proof.
  unfold create_calls, compile_calls.
  by destruct (failed d GL_VERTEX_SHADER vsrc),
    (failed d GL_FRAGMENT_SHADER fsrc).
Qed.

(** The program in use when [main] enters the loop. *)
Lemma setup_current_program :
  current_program (gl (setup_world d))
  = if link_ok d then program_name d else 0.
Proof.
  change (gl (setup_world d))
    with (gl (steps d (setup_calls d) initial_world)).
  rewrite gl_steps_eq. unfold setup_calls. rewrite !gl_steps_app.
  set (g0 := gl_steps d (configure_calls d) (gl initial_world)).
  set (g1 := gl_steps d (create_calls d vertexShader fragmentShader) g0).
  assert (H1 : current_program g1 = 0).
  { unfold g1. rewrite gl_steps_current_program
      by apply create_calls_select_nothing.
    unfold g0. by rewrite gl_steps_current_program. }
  unfold gl_steps. cbn [fold_left]. unfold gl_exec.
  destruct (Z.eqb_spec (program_name d) 0) as [Hp|Hp].
  - rewrite Hp. by destruct (link_ok d).
  - pose proof (built_program_linked vertexShader fragmentShader g0 Hp)
      as Hl.
    fold g1 in Hl.
    destruct (programs g1 !! program_name d) as [pg|]; [|done].
    injection Hl as ->. by destruct (link_ok d).
Qed.
End InUse.

Lemma rejecting_driver_starts : starts rejecting_driver.
Proof.
  unfold starts, compile_defined. simpl.
  repeat split; try discriminate. by exists "3.3.0"%string.
Defined.

Lemma patient_driver_starts : starts patient_driver.
Proof.
  unfold starts, compile_defined. simpl.
  repeat split; try discriminate. by exists "3.3.0"%string.
Defined.

(** X8.  The program in use while frames are drawn.  [main] never looks
    at the outcome of linking, calls [glUseProgram] on the program all
    the same, and then draws.  While [main] is in the loop, the program
    in use is the built one if the driver linked it; if linking failed,
    [glUseProgram] was refused, no program is in use, and [main] has
    nevertheless issued one draw call per iteration of its budget. *)
Theorem frames_use_the_program_only_if_linked
    (d : Driver) (fuel : nat) (w : World) :
  starts d →
  main d fuel initial_world = Looping w →
  current_program (gl w) = (if link_ok d then program_name d else 0) ∧
  count is_draw (calls w) = fuel.
Proof.
  intros Hstarts Hrun.
  destruct (main_shape d fuel Hstarts) as [n [Hn [Hloop|Hdone]]];
    [|by rewrite Hdone in Hrun].
  rewrite Hloop in Hrun. injection Hrun as <-.
  assert (Hfuel : n = fuel).
  { rewrite (main_run d fuel Hstarts) in Hloop.
    unfold mbind, M_bind in Hloop.
    destruct (frame_loop_shape d fuel (glfwCreateWindow_result d)
                (setup_world d)) as [m [[-> Hm]|[Hlt Hm]]];
      rewrite Hm in Hloop; [|done].
    injection Hloop as Hw. apply (f_equal close_checks) in Hw.
    rewrite !close_checks_steps, !count_iterations in Hw.
    change (count is_close_check (iteration _)) with 1%nat in Hw. lia. }
  subst n. split.
  - rewrite gl_steps_eq.
    pose proof (iterations_setup_state d fuel (glfwCreateWindow_result d)
                  (gl (setup_world d))) as Hs.
    apply setup_state_eq in Hs as (_ & _ & _ & ->).
    apply setup_current_program.
  - rewrite calls_steps, calls_setup_world, count_app, count_iterations.
    unfold count at 1. rewrite (proj1 (setup_calls_quiet d)).
    change (count is_draw (iteration _)) with 1%nat. simpl. lia.
Qed.

Lemma frames_use_the_program_only_if_linked_witness :
  starts rejecting_driver ∧
  main rejecting_driver 1 initial_world
  = Looping (world_of (main rejecting_driver 1 initial_world)) ∧
  current_program (gl (world_of (main rejecting_driver 1 initial_world)))
  = 0.
Proof.
  assert (Hrun :
    main rejecting_driver 1 initial_world
    = Looping (world_of (main rejecting_driver 1 initial_world)))
    by (vm_compute; reflexivity).
  split; [exact rejecting_driver_starts|]. split; [exact Hrun|].
  exact (proj1 (frames_use_the_program_only_if_linked rejecting_driver 1 _
                  rejecting_driver_starts Hrun)).
Defined.

(* ===================================================================== *)
(** ** Further properties: runs of [main] *)
(* ===================================================================== *)

(** X10.  Without a close request [main] never returns.  If [main] gets
    as far as the loop and the close flag is never raised, then for every
    number of iterations [main] is still in the loop, has returned
    nothing, has read the flag and drawn once per iteration, and has
    issued neither [glDeleteProgram] nor [glfwTerminate]. *)
Theorem main_never_returns_without_close_request
    (d : Driver) (fuel : nat) :
  starts d →
  (∀ k, close_flag d k = 0) →
  let w := world_of (main d fuel initial_world) in
  main d fuel initial_world = Looping w ∧
  returned (main d fuel initial_world) = None ∧
  count is_draw (calls w) = fuel ∧
  count is_close_check (calls w) = fuel ∧
  count deletes_program (calls w) = 0%nat ∧
  count is_teardown (calls w) = 0%nat.
Proof.
  intros Hstarts Hopen w.
  assert (Hrun : main d fuel initial_world
                 = Looping
                     (steps d (iterations fuel (glfwCreateWindow_result d))
                        (setup_world d))).
  { apply main_running; [done|]. intros k _. apply Hopen. }
  unfold w. rewrite Hrun. simpl world_of.
  split; [done|]. split; [done|].
  rewrite calls_steps, calls_setup_world, !count_app, !count_iterations.
  unfold count at 1 3 5 7.
  destruct (setup_calls_quiet d) as (-> & -> & _).
  change (count is_draw (iteration _)) with 1%nat.
  change (count is_close_check (iteration _)) with 1%nat.
  change (count deletes_program (iteration _)) with 0%nat.
  change (count is_teardown (iteration _)) with 0%nat.
  assert (Hquiet : List.filter is_teardown (setup_calls d) = [] ∧
                   List.filter deletes_program (setup_calls d) = []).
  { unfold setup_calls, create_calls, compile_calls.
    by destruct (failed d GL_VERTEX_SHADER vertexShader),
      (failed d GL_FRAGMENT_SHADER fragmentShader). }
  destruct Hquiet as (-> & ->). simpl. lia.
Qed.

Lemma main_never_returns_without_close_request_witness :
  starts patient_driver ∧
  (∀ k, close_flag patient_driver k = 0) ∧
  returned (main patient_driver 9 initial_world) = None ∧
  count deletes_program (calls (world_of (main patient_driver 9 initial_world)))
  = 0%nat.
Proof.
  assert (Hopen : ∀ k, close_flag patient_driver k = 0) by reflexivity.
  split; [exact patient_driver_starts|]. split; [exact Hopen|].
  destruct (main_never_returns_without_close_request patient_driver 9
              patient_driver_starts Hopen) as (_ & Hnone & _ & _ & Hdel & _).
  split; [exact Hnone | exact Hdel].
Defined.

(** X11.  What [main] prints.  On a run that gets as far as the loop,
    everything [main] ever writes to the console is the version string
    and a line end, followed by the diagnostic of the vertex shader and
    then that of the fragment shader, if they were rejected; the loop and
    the teardown print nothing.  When both shaders compile, the output is
    the version line alone. *)
Theorem main_prints_version_then_diagnostics
    (d : Driver) (fuel : nat) (version : string) :
  starts d →
  glGetString_result d = Some version →
  console (world_of (main d fuel initial_world))
  = version +:+ newline +:+
    diagnostic d GL_VERTEX_SHADER vertexShader +:+
    diagnostic d GL_FRAGMENT_SHADER fragmentShader ∧
  (failed d GL_VERTEX_SHADER vertexShader = false →
   failed d GL_FRAGMENT_SHADER fragmentShader = false →
   console (world_of (main d fuel initial_world)) = version +:+ newline).
Proof.
  intros Hstarts Hversion.
  assert (Hconsole : console (world_of (main d fuel initial_world))
                     = setup_output d).
  { destruct (main_shape d fuel Hstarts) as [n [_ [Hn|Hn]]]; rewrite Hn;
      simpl world_of; rewrite console_steps;
      change (console (setup_world d))
        with (console (steps d (setup_calls d) initial_world)
              +:+ setup_output d);
      by rewrite console_steps. }
  rewrite Hconsole. unfold setup_output. rewrite Hversion. split; [done|].
  intros Hv Hf. unfold diagnostic. rewrite Hv, Hf. simpl.
  by rewrite !append_empty_r.
Qed.

Lemma main_prints_version_then_diagnostics_witness :
  starts rejecting_driver ∧
  glGetString_result rejecting_driver = Some "3.3.0" ∧
  console (world_of (main rejecting_driver 5 initial_world))
  = "3.3.0" +:+ newline +:+
    "(EE) Failed to compile vertexshader:" +:+ newline +:+
    "0:1(1): error: syntax error" +:+ newline.
Proof.
  split; [exact rejecting_driver_starts|]. split; [reflexivity|].
  rewrite (proj1 (main_prints_version_then_diagnostics rejecting_driver 5
                    "3.3.0" rejecting_driver_starts eq_refl)).
  reflexivity.
Defined.

(** X12.  [main] without a version string.  If the library initialises
    and the window is created, but [glGetString(GL_VERSION)] returns a
    null pointer (as it does when the call is in error), [main] streams
    that null pointer to [std::cout] unchecked, which is undefined
    behaviour.  It is reached after six calls, when nothing has been
    printed yet; what the program does from there on is not determined
    by the source. *)
Theorem main_without_version_string (d : Driver) (fuel : nat) :
  glfwInit_result d ≠ 0 →
  glfwCreateWindow_result d ≠ NULL →
  glGetString_result d = None →
  let issued :=
    [ Call.glfwInit; Call.glewInit;
      Call.glfwCreateWindow 640 480 "Hello World" NULL NULL;
      Call.glfwMakeContextCurrent (glfwCreateWindow_result d);
      Call.glewInit; Call.glGetString GL_VERSION ] in
  main d fuel initial_world = Undefined (steps d issued initial_world) ∧
  console (steps d issued initial_world) = EmptyString.
Proof.
  intros Hinit Hwindow Hversion issued. split; [|done].
  unfold main, glfwInit, glewInit, glfwCreateWindow, glfwMakeContextCurrent,
    glGetString, call, cout_ptr.
  unfold mbind, M_bind, mret, M_ret.
  apply Z.eqb_neq in Hinit, Hwindow. by rewrite Hinit, Hwindow, Hversion.
Qed.

Lemma main_without_version_string_witness :
  glfwInit_result no_version_driver ≠ 0 ∧
  glfwCreateWindow_result no_version_driver ≠ NULL ∧
  glGetString_result no_version_driver = None ∧
  loop_state (main no_version_driver 5 initial_world) = None ∧
  returned (main no_version_driver 5 initial_world) = None.
Proof.
  split; [discriminate|]. split; [discriminate|]. split; [reflexivity|].
  rewrite (proj1 (main_without_version_string no_version_driver 5
                    ltac:(discriminate) ltac:(discriminate)
                    ltac:(reflexivity))).
  split; reflexivity.
Defined.

(* ===================================================================== *)
(** ** Further properties: the teardown *)
(* ===================================================================== *)

Section Teardown.
Variable d : Driver.




End Teardown.


